(** * actions-toolkit: the tool cache and the Undock installer

    A shallow embedding of [Cache] (src/cache.ts) and of [Install]
    (src/undock/install.ts).  The pure string helpers are plain functions;
    the methods that talk to the file system, the hosted tool cache, the
    GitHub Actions cache and the release manifest are programs over a
    signature of external calls, run against an arbitrary handler. *)

From Stdlib Require Import ZArith List Bool Ascii String Lia.
From stdpp Require Import base option strings gmap pretty.

Import ListNotations.
Local Open Scope string_scope.
Local Open Scope list_scope.
Local Open Scope Z_scope.

(** ** JavaScript values *)

(** A non-empty string is truthy, the empty one is falsy. *)
Definition truthy (s : string) : bool := negb (String.eqb s "").

(** [undefined] and [null] are [None]. *)
Definition truthy_opt (o : option string) : bool :=
  match o with
  | Some s => truthy s
  | None => false
  end.

(** [a || b] on strings that may be null. *)
Definition or_else (o : option string) (d : string) : string :=
  match o with
  | Some s => if truthy s then s else d
  | None => d
  end.

(** [s.includes(sub)]. *)
Definition includes (sub s : string) : Prop :=
  exists pre post, s = pre +:+ sub +:+ post.

(** ** The process: [os.platform()], [os.arch()], [os.homedir()] and
    [process.config.variables.arm_version], fixed for a run. *)

Record Runtime : Type := mkRuntime {
  os_platform : string;
  os_arch : string;
  arm_version : option string;
  os_homedir : string
}.

(** [util.format(fmt, ...args)] for the format strings of the toolkit,
    which are literals holding no specifier but [%s]: each [%s] takes the
    next argument, a [%s] with no argument left stays, and arguments left
    over are appended after a space. *)
Fixpoint format_rest (args : list string) : string :=
  match args with
  | [] => ""
  | a :: args' => " " +:+ a +:+ format_rest args'
  end.

Fixpoint util_format (fmt : string) (args : list string) : string :=
  match fmt with
  | EmptyString => format_rest args
  | String c rest =>
      match rest with
      | String d rest' =>
          if Ascii.eqb c "%" && Ascii.eqb d "s" then
            match args with
            | a :: args' => a +:+ util_format rest' args'
            | [] => String c (String d (util_format rest' []))
            end
          else String c (util_format rest args)
      | EmptyString => String c (format_rest args)
      end
  end.

(** ** Cache.platform (cache.ts) *)

Definition platform (rt : Runtime) : string :=
  os_platform rt +:+ "-" +:+ os_arch rt +:+
  (if truthy_opt (arm_version rt) then "v" +:+ default "" (arm_version rt) else "").

(** ** Install.filename (undock/install.ts) *)

Definition filename_arch (rt : Runtime) : string :=
  if String.eqb (os_arch rt) "x64" then "amd64"
  else if String.eqb (os_arch rt) "ppc64" then "ppc64le"
  else if String.eqb (os_arch rt) "arm" then
    (if truthy_opt (arm_version rt) then "armv" +:+ default "" (arm_version rt) else "arm")
  else os_arch rt.

Definition filename (rt : Runtime) (version : string) : string :=
  let arch := filename_arch rt in
  let platform := if String.eqb (os_platform rt) "win32" then "windows" else os_platform rt in
  let ext := if String.eqb (os_platform rt) "win32" then ".zip" else ".tar.gz" in
  util_format "undock_%s_%s_%s%s" [version; platform; arch; ext].

(** ** Install.vspec: [version.replace(/^v+|v+$/g, '')] *)

(** Does [v*$] match here: is the rest of the string made of [v] only? *)
Fixpoint all_v (s : string) : bool :=
  match s with
  | EmptyString => true
  | String c t => Ascii.eqb c "v" && all_v t
  end.

(** The first alternative, [^v+], matches at offset 0 and takes the whole
    leading run. *)
Fixpoint strip_leading_v (s : string) : string :=
  match s with
  | EmptyString => EmptyString
  | String c t => if Ascii.eqb c "v" then strip_leading_v t else s
  end.

(** The second alternative, [v+$], matches at the first offset from which
    only [v] follows up to the end. *)
Fixpoint strip_trailing_v (s : string) : string :=
  match s with
  | EmptyString => EmptyString
  | String c t =>
      if Ascii.eqb c "v" && all_v t then EmptyString
      else String c (strip_trailing_v t)
  end.

Definition vspec_replace (version : string) : string :=
  strip_trailing_v (strip_leading_v version).

(** ** Exceptions and results *)

(** A thrown value: [new Error(message)] of the toolkit itself, or whatever
    an external call rejects with. *)
Inductive Exn : Type :=
| Error (message : string)
| SyntaxError (message : string)
| ExternalError (name message : string).

Inductive Result (A : Type) : Type :=
| Ok (a : A)
| Err (e : Exn).
Arguments Ok {A} a.
Arguments Err {A} e.

(** ** Data of the installer *)

(** [resp.message.statusCode] is [number | undefined]; the payload is what
    [resp.readBody()] yields once the stream has been read. *)
Record HttpClientResponse : Type := mkResponse {
  message_statusCode : option Z;
  payload : string
}.

(** Modelled from the spec: the declaration of [GitHubRelease]
    (types/github.ts) is not part of the sources at hand; the release
    metadata carries [tag_name] at minimum, the only field read. *)
Record GitHubRelease : Type := mkRelease {
  tag_name : string
}.

(** What the property read [releases[key]] can find: an entry of the
    manifest, or a member that the object inherits from
    [Object.prototype]. *)
Inductive Member : Type :=
| own_entry (release : GitHubRelease)
| inherited_member (name : string).

(** The property names of [Object.prototype]. *)
Definition Object_prototype_members : list string :=
  ["constructor"; "__defineGetter__"; "__defineSetter__"; "hasOwnProperty";
   "__lookupGetter__"; "__lookupSetter__"; "isPrototypeOf"; "propertyIsEnumerable";
   "toString"; "valueOf"; "__proto__"; "toLocaleString"].

Definition is_prototype_member (key : string) : bool :=
  existsb (String.eqb key) Object_prototype_members.

(** [releases[key]] on the object that [JSON.parse] built from the
    document: the entry of that name if the document has one (an entry
    named like a member of the prototype hides it), else the member of
    [Object.prototype] of that name, else [undefined]. *)
Definition property_read (releases : gmap string GitHubRelease) (key : string)
  : option Member :=
  match releases !! key with
  | Some release => Some (own_entry release)
  | None => if is_prototype_member key then Some (inherited_member key) else None
  end.

(** [`${release.tag_name}`]: a member of the prototype has no [tag_name]. *)
Definition tag_name_text (m : Member) : string :=
  match m with
  | own_entry release => tag_name release
  | inherited_member _ => "undefined"
  end.

(** The [TypeError] of the JavaScript engine. *)
Definition TypeError (message : string) : Exn := ExternalError "TypeError" message.

(** The object literal built by [Install.getDownloadVersion]. *)
Record DownloadVersion : Type := mkDownloadVersion {
  version : string;
  downloadURL : string;
  releasesURL : string
}.

(** ** External calls

    One constructor per call that leaves the toolkit, with its arguments;
    [Resp] gives the type of what the call returns. *)
Inductive Event : Type :=
| fs_existsSync (path : string)
| fs_mkdirSync (path : string)
| fs_copyFileSync (src dest : string)
| tc_find (toolName versionSpec arch : string)
| tc_cacheDir (sourceDir tool version arch : string)
| tc_downloadTool (url : string)
| tc_extractZip (file : string)
| tc_extractTar (file : string)
| cache_isFeatureAvailable
| cache_saveCache (paths : list string) (key : string)
| cache_restoreCache (paths : list string) (primaryKey : string)
| http_get (requestUrl : string)
| readBody (resp : HttpClientResponse).

Definition Resp (ev : Event) : Type :=
  match ev with
  | fs_existsSync _ => bool
  | fs_mkdirSync _ => unit
  | fs_copyFileSync _ _ => unit
  | tc_find _ _ _ => string
  | tc_cacheDir _ _ _ _ => string
  | tc_downloadTool _ => string
  | tc_extractZip _ => string
  | tc_extractTar _ => string
  | cache_isFeatureAvailable => bool
  | cache_saveCache _ _ => Z
  | cache_restoreCache _ _ => option string
  | http_get _ => HttpClientResponse
  | readBody _ => string
  end.

Inductive Level : Type := Debug | Info.

(** ** Programs

    A method body is a tree: it returns, throws, writes a log line
    ([core.debug], [core.info]) or makes an external call and continues
    with the answer.  There is no handler for exceptions in the tree
    because neither source file has a [try]. *)
Inductive Prog (A : Type) : Type :=
| Ret (a : A)
| Throw (e : Exn)
| Log (lvl : Level) (msg : string) (k : Prog A)
| Call (ev : Event) (k : Resp ev -> Prog A).
Arguments Ret {A} a.
Arguments Throw {A} e.
Arguments Log {A} lvl msg k.
Arguments Call {A} ev k.

Fixpoint bind {A B : Type} (p : Prog A) (f : A -> Prog B) : Prog B :=
  match p with
  | Ret a => f a
  | Throw e => Throw e
  | Log lvl msg k => Log lvl msg (bind k f)
  | Call ev k => Call ev (fun x => bind (k x) f)
  end.

#[global] Instance Prog_ret : MRet Prog := fun A a => Ret a.
#[global] Instance Prog_bind : MBind Prog := fun A B f p => bind p f.

Definition call (ev : Event) : Prog (Resp ev) := Call ev Ret.
Definition core_debug (msg : string) : Prog unit := Log Debug msg (Ret tt).
Definition core_info (msg : string) : Prog unit := Log Info msg (Ret tt).

(** ** Running a program

    The outside world is a handler with a state of its own: it answers
    each call with a value or an exception.  A run yields the result, the
    final state of the world and what was observed, in order. *)
Definition Handler (W : Type) : Type :=
  forall ev : Event, W -> Result (Resp ev) * W.

Inductive Obs : Type :=
| logged (lvl : Level) (msg : string)
| called (ev : Event) (res : Result (Resp ev)).

Fixpoint run {W A : Type} (h : Handler W) (p : Prog A) (w : W)
  : Result A * W * list Obs :=
  match p with
  | Ret a => (Ok a, w, [])
  | Throw e => (Err e, w, [])
  | Log lvl msg k =>
      let '(r, w', tr) := run h k w in (r, w', logged lvl msg :: tr)
  | Call ev k =>
      match h ev w with
      | (Ok x, w1) =>
          let '(r, w2, tr) := run h (k x) w1 in (r, w2, called ev (Ok x) :: tr)
      | (Err e, w1) => (Err e, w1, [called ev (Err e)])
      end
  end.

(** What a trace entry says about failure, without its dependent part. *)
Definition threw (o : Obs) : option Exn :=
  match o with
  | called _ (Err e) => Some e
  | _ => None
  end.

Definition event_of (o : Obs) : option Event :=
  match o with
  | called ev _ => Some ev
  | logged _ _ => None
  end.

(** ** Library functions the toolkit calls and that are pure: [path.join],
    [JSON.parse] of a release manifest, [semver.clean], [semver.valid]. *)
Class Libs : Type := mkLibs {
  path_join : list string -> string;
  JSON_parse : string -> Result (gmap string GitHubRelease);
  semver_clean : string -> option string;
  semver_valid : string -> option string
}.

Definition dquote : string := String "034"%char EmptyString.

(** ** Cache (cache.ts) *)

(** The options object.  The interface [CacheOpts] declares the first four
    fields; the literal that [Install.download] passes carries
    [ghaNoCache] as well, so the object held in [this.opts] has it. *)
Record CacheOpts : Type := mkCacheOpts {
  htcName : string;
  htcVersion : string;
  baseCacheDir : string;
  cacheFile : string;
  ghaNoCache : option bool
}.

Record Cache : Type := mkCache {
  opts : CacheOpts;
  ghaCacheKey : string;
  cacheDir : string;
  cachePath : string
}.

(** The object literal that [Install.getDownloadVersion] returns. *)
Definition undock_download_version (v : string) : DownloadVersion :=
  mkDownloadVersion v
    "https://github.com/crazy-max/undock/releases/download/v%s/%s"
    "https://raw.githubusercontent.com/docker/actions-toolkit/main/.github/undock-releases.json".

Section Toolkit.
Context (rt : Runtime) {L : Libs}.

Definition Cache_new (o : CacheOpts) : Prog Cache :=
  let ghaCacheKey := util_format "%s-%s-%s" [htcName o; htcVersion o; platform rt] in
  let cacheDir := path_join [baseCacheDir o; htcVersion o; platform rt] in
  let cachePath := path_join [cacheDir; cacheFile o] in
  present ← call (fs_existsSync cacheDir);
  (if negb present then call (fs_mkdirSync cacheDir) else mret tt);;
  mret (mkCache o ghaCacheKey cacheDir cachePath).

Definition copyToCache (this : Cache) (file : string) : Prog string :=
  core_debug ("Copying " +:+ file +:+ " to " +:+ cachePath this);;
  call (fs_copyFileSync file (cachePath this));;
  mret (cachePath this).

Definition save (this : Cache) (file : string) : Prog string :=
  core_debug ("Cache.save " +:+ file);;
  cachePath ← copyToCache this file;
  htcPath ← call (tc_cacheDir (cacheDir this) (htcName (opts this))
                    (htcVersion (opts this)) (platform rt));
  core_debug ("Cache.save cached to hosted tool cache " +:+ htcPath);;
  available ← call cache_isFeatureAvailable;
  (if available : bool then
     core_debug ("Cache.save caching " +:+ ghaCacheKey this +:+ " to GitHub Actions cache");;
     call (cache_saveCache [cacheDir this] (ghaCacheKey this));;
     mret tt
   else mret tt);;
  mret cachePath.

Definition find (this : Cache) : Prog string :=
  htcPath ← call (tc_find (htcName (opts this)) (htcVersion (opts this)) (platform rt));
  if truthy htcPath then
    core_info ("Restored from hosted tool cache " +:+ htcPath);;
    copyToCache this (htcPath +:+ "/" +:+ cacheFile (opts this))
  else
    available ← call cache_isFeatureAvailable;
    if available : bool then
      core_debug "GitHub Actions cache feature available";;
      restored ← call (cache_restoreCache [cacheDir this] (ghaCacheKey this));
      if truthy_opt restored then
        core_info ("Restored " +:+ ghaCacheKey this +:+ " from GitHub Actions cache");;
        htcPath ← call (tc_cacheDir (cacheDir this) (htcName (opts this))
                          (htcVersion (opts this)) (platform rt));
        core_info ("Restored to hosted tool cache " +:+ htcPath);;
        copyToCache this (htcPath +:+ "/" +:+ cacheFile (opts this))
      else mret ""
    else
      core_info "GitHub Actions cache feature not available";;
      mret "".

(** ** Install (undock/install.ts) *)

Definition vspec (version : string) : Prog string :=
  let v := vspec_replace version in
  core_info ("Use " +:+ v +:+ " version spec cache key for " +:+ version);;
  mret v.

Definition getDownloadVersion (v : string) : Prog DownloadVersion :=
  mret (undock_download_version v).

(** [resp.message.statusCode || 500] *)
Definition statusCode_or_500 (o : option Z) : Z :=
  match o with
  | Some n => if n =? 0 then 500 else n
  | None => 500
  end.

(** [releases[version.version]] is a property read, see [property_read]:
    every member it can find is truthy, so the not-found error is thrown
    only when it finds nothing, and what it finds is returned as it is. *)
Definition getRelease (dv : DownloadVersion) : Prog Member :=
  resp ← call (http_get (releasesURL dv));
  body ← call (readBody resp);
  let statusCode := statusCode_or_500 (message_statusCode resp) in
  if 400 <=? statusCode then
    Throw (Error ("Failed to get Undock releases from " +:+ releasesURL dv +:+
                  " with status code " +:+ pretty statusCode +:+ ": " +:+ body))
  else
    match JSON_parse body with
    | Err e => Throw e
    | Ok releases =>
        match property_read releases (version dv) with
        | None =>
            Throw (Error ("Cannot find Undock release " +:+ version dv +:+
                          " in " +:+ releasesURL dv))
        | Some release => mret release
        end
    end.

(** [os.platform() == 'win32' ? 'undock.exe' : 'undock'], which
    [download] writes out where it needs the name of the binary. *)
Definition exeName : string :=
  if String.eqb (os_platform rt) "win32" then "undock.exe" else "undock".

Definition download (v : string) (ghaNoCache : option bool) : Prog string :=
  dv ← getDownloadVersion v;
  core_debug ("Install.download version: " +:+ version dv);;
  release ← getRelease dv;
  core_debug ("Install.download release tag name: " +:+ tag_name_text release);;
  vspec ← (match release with
           | own_entry release => vspec (tag_name release)
           | inherited_member _ =>
               (* [this.vspec(undefined)]: [version.replace] on [undefined] *)
               Throw (TypeError "Cannot read properties of undefined (reading 'replace')")
           end);
  core_debug ("Install.download vspec: " +:+ vspec);;
  let c := or_else (semver_clean vspec) "" in
  if negb (truthy_opt (semver_valid c)) then
    Throw (Error ("Invalid Undock version " +:+ dquote +:+ vspec +:+ dquote +:+ "."))
  else
    installCache ← Cache_new (mkCacheOpts "undock-dl-bin" vspec
                                (path_join [os_homedir rt; ".bin"]) exeName ghaNoCache);
    cacheFoundPath ← find installCache;
    if truthy cacheFoundPath then
      core_info ("Unodck binary found in " +:+ cacheFoundPath);;
      mret cacheFoundPath
    else
      let downloadURL := util_format (downloadURL dv) [vspec; filename rt vspec] in
      core_info ("Downloading " +:+ downloadURL);;
      htcDownloadPath ← call (tc_downloadTool downloadURL);
      core_debug ("Install.download htcDownloadPath: " +:+ htcDownloadPath);;
      htcExtPath ← (if String.eqb (os_platform rt) "win32"
                    then call (tc_extractZip htcDownloadPath)
                    else call (tc_extractTar htcDownloadPath));
      core_info ("Extracted to " +:+ htcExtPath);;
      let exePath := path_join [htcExtPath; exeName] in
      core_debug ("Install.download exePath: " +:+ exePath);;
      cacheSavePath ← save installCache exePath;
      core_info ("Cached to " +:+ cacheSavePath);;
      mret cacheSavePath.

End Toolkit.

(** ** An instance of the libraries

    The theorems below hold for every [Libs] and every handler.  Closed
    examples need one of each; this is the one they use. *)

(** The strict grammar of the [semver] package, for inputs of at most 256
    characters: [v?MAJOR.MINOR.PATCH(-PRERELEASE)?(+BUILD)?], numeric
    identifiers without leading zeros and not above
    [Number.MAX_SAFE_INTEGER]; the parsed version drops the build part. *)
Module Semver.

Definition code (c : ascii) : N := N_of_ascii c.

Definition is_digit (c : ascii) : bool := ((48 <=? code c) && (code c <=? 57))%N.

Definition is_letter (c : ascii) : bool :=
  (((65 <=? code c) && (code c <=? 90)) || ((97 <=? code c) && (code c <=? 122)))%N.

Definition is_idchar (c : ascii) : bool :=
  is_digit c || is_letter c || Ascii.eqb c "-".

Definition is_space (c : ascii) : bool :=
  ((code c =? 32) || ((9 <=? code c) && (code c <=? 13)))%N.

Fixpoint all_chars (f : ascii -> bool) (s : string) : bool :=
  match s with
  | EmptyString => true
  | String c t => f c && all_chars f t
  end.

Fixpoint some_char (f : ascii -> bool) (s : string) : bool :=
  match s with
  | EmptyString => false
  | String c t => f c || some_char f t
  end.

Fixpoint drop_while (f : ascii -> bool) (s : string) : string :=
  match s with
  | EmptyString => EmptyString
  | String c t => if f c then drop_while f t else s
  end.

Fixpoint drop_while_end (f : ascii -> bool) (s : string) : string :=
  match s with
  | EmptyString => EmptyString
  | String c t => if f c && all_chars f t then EmptyString else String c (drop_while_end f t)
  end.

Definition trim (s : string) : string := drop_while_end is_space (drop_while is_space s).

(** The longest prefix whose characters satisfy [f], and the rest. *)
Fixpoint span (f : ascii -> bool) (s : string) : string * string :=
  match s with
  | EmptyString => (EmptyString, EmptyString)
  | String c t =>
      if f c then let '(a, b) := span f t in (String c a, b)
      else (EmptyString, s)
  end.

Fixpoint split_on (sep : ascii) (s : string) : list string :=
  match s with
  | EmptyString => [EmptyString]
  | String c t =>
      if Ascii.eqb c sep then EmptyString :: split_on sep t
      else match split_on sep t with
           | hd :: tl => String c hd :: tl
           | [] => [String c EmptyString]
           end
  end.

Fixpoint number_of (acc : N) (s : string) : N :=
  match s with
  | EmptyString => acc
  | String c t => number_of (acc * 10 + (code c - 48))%N t
  end.

Definition MAX_SAFE_INTEGER : N := 9007199254740991%N.

Definition numeric_identifier (s : string) : bool :=
  match s with
  | EmptyString => false
  | String c t => is_digit c && all_chars is_digit t
                  && (negb (Ascii.eqb c "0") || String.eqb t "")
  end.

Definition main_identifier (s : string) : bool :=
  numeric_identifier s && (number_of 0 s <=? MAX_SAFE_INTEGER)%N.

Definition prerelease_identifier (s : string) : bool :=
  numeric_identifier s
  || (all_chars is_idchar s && some_char (fun c => negb (is_digit c)) s).

Definition build_identifier (s : string) : bool :=
  negb (String.eqb s "") && all_chars is_idchar s.

Definition parse (version : string) : option string :=
  if (256 <? String.length version)%nat then None else
  let s := trim version in
  let s := match s with
           | String c t => if Ascii.eqb c "v" then t else s
           | EmptyString => s
           end in
  let '(main, rest) := span (fun c => is_digit c || Ascii.eqb c ".") s in
  let main_ok :=
    match split_on "." main with
    | [a; b; c] => main_identifier a && main_identifier b && main_identifier c
    | _ => false
    end in
  let build_ok (b : string) := forallb build_identifier (split_on "." b) in
  match rest with
  | EmptyString => if main_ok then Some main else None
  | String c t =>
      if Ascii.eqb c "+" then
        if main_ok && build_ok t then Some main else None
      else if Ascii.eqb c "-" then
        let '(pre, rest') := span (fun c => negb (Ascii.eqb c "+")) t in
        let pre_ok := forallb prerelease_identifier (split_on "." pre) in
        let tail_ok := match rest' with
                       | EmptyString => true
                       | String _ b => build_ok b
                       end in
        if main_ok && pre_ok && tail_ok then Some (main +:+ "-" +:+ pre) else None
      else None
  end.

Definition valid (version : string) : option string := parse version.

Definition clean (version : string) : option string :=
  parse (drop_while (fun c => Ascii.eqb c "=" || Ascii.eqb c "v") (trim version)).

End Semver.

(** [path.join] on POSIX for segments that need no normalisation. *)
Definition posix_join (segments : list string) : string := String.concat "/" segments.

(** [JSON.parse] for one known document; anything else is malformed. *)
Definition parse_document (doc : string) (releases : gmap string GitHubRelease)
    (body : string) : Result (gmap string GitHubRelease) :=
  if String.eqb body doc then Ok releases
  else Err (SyntaxError "Unexpected token in JSON").

Definition node_libs (doc : string) (releases : gmap string GitHubRelease) : Libs :=
  mkLibs posix_join (parse_document doc releases) Semver.clean Semver.valid.

(** ** A scripted outside world

    Each kind of call has one fixed answer, as with the mocks of a test
    suite; the world keeps no state. *)
Record Script : Type := mkScript {
  on_existsSync : bool;
  on_copyFileSync : Result unit;
  on_tc_find : string;
  on_tc_cacheDir : Result string;
  on_isFeatureAvailable : bool;
  on_saveCache : Result Z;
  on_restoreCache : Result (option string);
  on_http_get : Result HttpClientResponse
}.

Definition scripted (sc : Script) : Handler unit := fun ev w =>
  (match ev return Result (Resp ev) with
   | fs_existsSync _ => Ok (on_existsSync sc)
   | fs_mkdirSync _ => Ok tt
   | fs_copyFileSync _ _ => on_copyFileSync sc
   | tc_find _ _ _ => Ok (on_tc_find sc)
   | tc_cacheDir _ _ _ _ => on_tc_cacheDir sc
   | tc_downloadTool _ => Ok "/tmp/dl/archive"
   | tc_extractZip _ => Ok "/tmp/dl/extracted"
   | tc_extractTar _ => Ok "/tmp/dl/extracted"
   | cache_isFeatureAvailable => Ok (on_isFeatureAvailable sc)
   | cache_saveCache _ _ => on_saveCache sc
   | cache_restoreCache _ _ => on_restoreCache sc
   | http_get _ => on_http_get sc
   | readBody resp => Ok (payload resp)
   end, w).

Definition linux_x64 : Runtime := mkRuntime "linux" "x64" None "/home/runner".

Definition releases_doc : string := "<undock-releases.json>".

Definition commit_sha : string := "c0ffee1234567890abcdef1234567890abcdef12".

Definition releases_json : gmap string GitHubRelease :=
  {[ "latest" := mkRelease "v1.2.3";
     "2.0.0" := mkRelease "v2.0.1";
     "edge" := mkRelease commit_sha ]}.

Definition libs0 : Libs := node_libs releases_doc releases_json.

(** A fresh runner: nothing cached anywhere, the GitHub Actions cache is
    reachable, the manifest is served. *)
Definition fresh_runner : Script :=
  mkScript false (Ok tt) "" (Ok "/opt/hostedtoolcache/undock-dl-bin/1.2.3/linux-x64")
           true (Ok 1) (Ok None) (Ok (mkResponse (Some 200) releases_doc)).

(** How a string starts and ends. *)
Definition first_char (s : string) : option ascii :=
  match s with
  | EmptyString => None
  | String c _ => Some c
  end.

Fixpoint last_char (s : string) : option ascii :=
  match s with
  | EmptyString => None
  | String c EmptyString => Some c
  | String _ t => last_char t
  end.




(** A 2xx status, the success class of HTTP. *)
Definition is_success_status (statusCode : Z) : bool :=
  (200 <=? statusCode) && (statusCode <? 300).

(** A commit-SHA-style identifier: 7 to 40 hexadecimal digits. *)
Definition is_hex_digit (c : ascii) : bool :=
  Semver.is_digit c
  || ((97 <=? Semver.code c) && (Semver.code c <=? 102))%N
  || ((65 <=? Semver.code c) && (Semver.code c <=? 70))%N.

Definition is_commit_sha (s : string) : bool :=
  Semver.all_chars is_hex_digit s
  && (7 <=? String.length s)%nat && (String.length s <=? 40)%nat.

#[global] Instance Exn_eq_dec : EqDecision Exn.
Proof. solve_decision. Defined.

#[global] Instance HttpClientResponse_eq_dec : EqDecision HttpClientResponse.
Proof. solve_decision. Defined.

#[global] Instance Event_eq_dec : EqDecision Event.
Proof. solve_decision. Defined.

(** The cache object with another [ghaNoCache] in its options. *)
Definition with_ghaNoCache (this : Cache) (flag : option bool) : Cache :=
  mkCache (mkCacheOpts (htcName (opts this)) (htcVersion (opts this))
             (baseCacheDir (opts this)) (cacheFile (opts this)) flag)
          (ghaCacheKey this) (cacheDir this) (cachePath this).

(** The cache that [download] builds on [linux_x64] for version 1.2.3. *)
Definition cache_1_2_3 : Cache :=
  mkCache (mkCacheOpts "undock-dl-bin" "1.2.3" "/home/runner/.bin" "undock" None)
          "undock-dl-bin-1.2.3-linux-x64"
          "/home/runner/.bin/1.2.3/linux-x64"
          "/home/runner/.bin/1.2.3/linux-x64/undock".

Definition extracted_exe : string := "/tmp/dl/extracted/undock".

Definition hosted_dir : string := "/opt/hostedtoolcache/undock-dl-bin/1.2.3/linux-x64".

Definition service_error : Exn :=
  ExternalError "HttpClientError" "Cache service responded with 503".

(** As [fresh_runner], but the upload to the GitHub Actions cache fails. *)
Definition upload_down : Script :=
  mkScript false (Ok tt) "" (Ok hosted_dir) true (Err service_error) (Ok None)
           (Ok (mkResponse (Some 200) releases_doc)).

(** As [fresh_runner], but restoring from the GitHub Actions cache fails. *)
Definition restore_down : Script :=
  mkScript false (Ok tt) "" (Ok hosted_dir) true (Ok 1) (Err service_error)
           (Ok (mkResponse (Some 200) releases_doc)).

(** The binary is in the hosted tool cache already. *)
Definition warm_runner : Script :=
  mkScript true (Ok tt) hosted_dir (Ok hosted_dir) true (Ok 1) (Ok None)
           (Ok (mkResponse (Some 200) releases_doc)).

(** The manifest is served with another status. *)
Definition manifest_status (statusCode : Z) (body : string) : Script :=
  mkScript false (Ok tt) "" (Ok hosted_dir) true (Ok 1) (Ok None)
           (Ok (mkResponse (Some statusCode) body)).

Definition undock_releases_url : string := releasesURL (undock_download_version "").

(** What [download] has logged and called once the version is resolved. *)
Definition resolved_trace (v : string) (resp : HttpClientResponse) (body : string)
    (release : GitHubRelease) : list Obs :=
  [logged Debug ("Install.download version: " +:+ v);
   called (http_get (releasesURL (undock_download_version v))) (Ok resp);
   called (readBody resp) (Ok body);
   logged Debug ("Install.download release tag name: " +:+ tag_name release);
   logged Info ("Use " +:+ vspec_replace (tag_name release) +:+
                " version spec cache key for " +:+ tag_name release);
   logged Debug ("Install.download vspec: " +:+ vspec_replace (tag_name release))].


(** The calls each part of [download] can make. *)
Definition manifest_call (ev : Event) : bool :=
  match ev with
  | http_get _ | readBody _ => true
  | _ => false
  end.

Definition setup_call (ev : Event) : bool :=
  match ev with
  | fs_existsSync _ | fs_mkdirSync _ => true
  | _ => false
  end.

Definition find_call (ev : Event) : bool :=
  match ev with
  | tc_find _ _ _ | cache_isFeatureAvailable | cache_restoreCache _ _
  | tc_cacheDir _ _ _ _ | fs_copyFileSync _ _ => true
  | _ => false
  end.

Definition save_call (ev : Event) : bool :=
  match ev with
  | fs_copyFileSync _ _ | tc_cacheDir _ _ _ _ | cache_isFeatureAvailable
  | cache_saveCache _ _ => true
  | _ => false
  end.

(** Downloading and unpacking the release asset. *)
Definition fetch_call (ev : Event) : bool :=
  match ev with
  | tc_downloadTool _ | tc_extractZip _ | tc_extractTar _ => true
  | _ => false
  end.

(** The URL of the release asset for a version spec, as [util.format]
    fills the template of [getDownloadVersion]. *)
Definition asset_url (rt : Runtime) (vspec : string) : string :=
  "https://github.com/crazy-max/undock/releases/download/v" +:+ vspec +:+ "/" +:+
  filename rt vspec.

(** ** Install.install and Config (buildkit/config.ts)

    These two reach further into the host than the cache and the
    download do: they change file modes, read and write files, extend the
    PATH of the job and ask [Context] for temporary names.  Their calls
    are the calls above and these; [Context] (context.ts) is not among the
    sources, its two methods are calls like the others. *)
Inductive HostEvent : Type :=
| toolkit (ev : Event)
| fs_chmodSync (path mode : string)
| fs_readFileSync (path : string)
| fs_writeFileSync (file data : string)
| core_addPath (inputPath : string)
| Context_tmpDir
| Context_tmpName (tmpdir : string).

Definition HostResp (ev : HostEvent) : Type :=
  match ev with
  | toolkit ev => Resp ev
  | fs_chmodSync _ _ => unit
  | fs_readFileSync _ => string
  | fs_writeFileSync _ _ => unit
  | core_addPath _ => unit
  | Context_tmpDir => string
  | Context_tmpName _ => string
  end.

Inductive HostProg (A : Type) : Type :=
| HRet (a : A)
| HThrow (e : Exn)
| HLog (lvl : Level) (msg : string) (k : HostProg A)
| HCall (ev : HostEvent) (k : HostResp ev -> HostProg A).
Arguments HRet {A} a.
Arguments HThrow {A} e.
Arguments HLog {A} lvl msg k.
Arguments HCall {A} ev k.

Fixpoint hbind {A B : Type} (p : HostProg A) (f : A -> HostProg B) : HostProg B :=
  match p with
  | HRet a => f a
  | HThrow e => HThrow e
  | HLog lvl msg k => HLog lvl msg (hbind k f)
  | HCall ev k => HCall ev (fun x => hbind (k x) f)
  end.

#[global] Instance HostProg_ret : MRet HostProg := fun A a => HRet a.
#[global] Instance HostProg_bind : MBind HostProg := fun A B f p => hbind p f.

Definition hcall (ev : HostEvent) : HostProg (HostResp ev) := HCall ev HRet.
Definition host_info (msg : string) : HostProg unit := HLog Info msg (HRet tt).

Definition HostHandler (W : Type) : Type :=
  forall ev : HostEvent, W -> Result (HostResp ev) * W.

Inductive HostObs : Type :=
| hlogged (lvl : Level) (msg : string)
| hcalled (ev : HostEvent) (res : Result (HostResp ev)).

Fixpoint hrun {W A : Type} (h : HostHandler W) (p : HostProg A) (w : W)
  : Result A * W * list HostObs :=
  match p with
  | HRet a => (Ok a, w, [])
  | HThrow e => (Err e, w, [])
  | HLog lvl msg k =>
      let '(r, w', tr) := hrun h k w in (r, w', hlogged lvl msg :: tr)
  | HCall ev k =>
      match h ev w with
      | (Ok x, w1) =>
          let '(r, w2, tr) := hrun h (k x) w1 in (r, w2, hcalled ev (Ok x) :: tr)
      | (Err e, w1) => (Err e, w1, [hcalled ev (Err e)])
      end
  end.

Definition host_event_of (o : HostObs) : option HostEvent :=
  match o with
  | hcalled ev _ => Some ev
  | hlogged _ _ => None
  end.

#[global] Instance HostEvent_eq_dec : EqDecision HostEvent.
Proof. solve_decision. Defined.

Section Host.
Context (rt : Runtime) {L : Libs}.

(** Install.install (undock/install.ts) *)
Definition install (binPath : string) (dest : option string) : HostProg string :=
  dest ← (if truthy_opt dest then mret (default "" dest) else hcall Context_tmpDir);
  let binDir := path_join [dest; "undock-bin"] in
  present ← hcall (toolkit (fs_existsSync binDir));
  (if negb present then hcall (toolkit (fs_mkdirSync binDir)) else mret tt);;
  let binName := if String.eqb (os_platform rt) "win32" then "undock.exe" else "undock" in
  let undockPath := path_join [binDir; binName] in
  hcall (toolkit (fs_copyFileSync binPath undockPath));;
  host_info "Fixing perms";;
  hcall (fs_chmodSync undockPath "0755");;
  hcall (core_addPath binDir);;
  host_info "Added Unodck to PATH";;
  host_info ("Binary path: " +:+ undockPath);;
  mret undockPath.

(** Config.generate (buildkit/config.ts) *)
Definition generate (s : string) (file : bool) : HostProg string :=
  s ← (if file then
         present ← hcall (toolkit (fs_existsSync s));
         if negb present then HThrow (Error ("config file " +:+ s +:+ " not found"))
         else hcall (fs_readFileSync s)
       else mret s);
  tmpdir ← hcall Context_tmpDir;
  configFile ← hcall (Context_tmpName tmpdir);
  hcall (fs_writeFileSync configFile s);;
  mret configFile.

Definition generateFromString (s : string) : HostProg string := generate s false.

Definition generateFromFile (s : string) : HostProg string := generate s true.

End Host.

(** Text in files.  A string of the program is held by its UTF-8 bytes;
    [fs.writeFileSync(path, s)] stores these bytes, and
    [fs.readFileSync(path, {encoding: 'utf-8'})] decodes the bytes of the
    file: a well-formed sequence is kept, and every maximal ill-formed
    part becomes U+FFFD.  A byte order mark is kept. *)
Definition replacement_character : string :=
  String (ascii_of_N 239) (String (ascii_of_N 191) (String (ascii_of_N 189) "")).

(** The sequence under way: continuation bytes still needed, the bounds
    of the next one, and the bytes read so far. *)
Record Partial : Type := mkPartial {
  needed : nat;
  lower : N;
  upper : N;
  seen : string
}.

(** A byte met outside a sequence: what it yields at once, and the
    sequence it starts. *)
Definition utf8_lead (b : ascii) : string * option Partial :=
  let n := N_of_ascii b in
  if (n <=? 127)%N then (String b "", None)
  else if (194 <=? n)%N && (n <=? 223)%N then
    ("", Some (mkPartial 1 128 191 (String b "")))
  else if (224 <=? n)%N && (n <=? 239)%N then
    ("", Some (mkPartial 2 (if (n =? 224)%N then 160 else 128)%N
                 (if (n =? 237)%N then 159 else 191)%N (String b "")))
  else if (240 <=? n)%N && (n <=? 244)%N then
    ("", Some (mkPartial 3 (if (n =? 240)%N then 144 else 128)%N
                 (if (n =? 244)%N then 143 else 191)%N (String b "")))
  else (replacement_character, None).

Fixpoint utf8_decode (st : option Partial) (bytes : string) : string :=
  match bytes with
  | EmptyString =>
      match st with
      | None => ""
      | Some _ => replacement_character
      end
  | String b rest =>
      match st with
      | None => (utf8_lead b).1 +:+ utf8_decode (utf8_lead b).2 rest
      | Some part =>
          let n := N_of_ascii b in
          if (lower part <=? n)%N && (n <=? upper part)%N then
            match needed part with
            | S (S k) =>
                utf8_decode (Some (mkPartial (S k) 128 191 (seen part +:+ String b ""))) rest
            | _ => seen part +:+ String b "" +:+ utf8_decode None rest
            end
          else
            replacement_character +:+ (utf8_lead b).1 +:+ utf8_decode (utf8_lead b).2 rest
      end
  end.

Definition utf8_text (bytes : string) : string := utf8_decode None bytes.

(** A file system for closed runs: the files, as bytes by path, and a
    counter that makes temporary names.  Only the calls of [Config] are
    served.  [Context.tmpName] answers a name that no file has: it makes
    one, [{dir}/tmp-{counter}], and throws when a file has it. *)
Record Disk : Type := mkDisk {
  files : gmap string string;
  next_tmp : N
}.

Definition disk_tmpdir : string := "/tmp/docker-actions-toolkit".

Definition tmp_candidate (dir : string) (d : Disk) : string :=
  dir +:+ "/tmp-" +:+ pretty (next_tmp d).

Definition on_disk : HostHandler Disk := fun ev d =>
  match ev return Result (HostResp ev) * Disk with
  | toolkit (fs_existsSync p) => (Ok (bool_decide (is_Some (files d !! p))), d)
  | fs_readFileSync p =>
      match files d !! p with
      | Some bytes => (Ok (utf8_text bytes), d)
      | None => (Err (ExternalError "ENOENT" ("no such file or directory, open " +:+ p)), d)
      end
  | fs_writeFileSync p data => (Ok tt, mkDisk (<[p := data]> (files d)) (next_tmp d))
  | Context_tmpDir => (Ok disk_tmpdir, d)
  | Context_tmpName dir =>
      (match files d !! tmp_candidate dir d with
       | None => Ok (tmp_candidate dir d)
       | Some _ => Err (Error "Could not get a unique tmp filename, max tries reached")
       end, mkDisk (files d) (N.succ (next_tmp d)))
  | _ => (Err (ExternalError "ENOSYS" "not served"), d)
  end.

(** A host where every call succeeds, for closed runs of [install]. *)
Definition plain_host (present : bool) : HostHandler unit := fun ev w =>
  (match ev return Result (HostResp ev) with
   | toolkit (fs_existsSync _) => Ok present
   | toolkit (fs_mkdirSync _) => Ok tt
   | toolkit (fs_copyFileSync _ _) => Ok tt
   | toolkit _ => Err (ExternalError "ENOSYS" "not served")
   | fs_chmodSync _ _ => Ok tt
   | fs_readFileSync _ => Ok ""
   | fs_writeFileSync _ _ => Ok tt
   | core_addPath _ => Ok tt
   | Context_tmpDir => Ok disk_tmpdir
   | Context_tmpName dir => Ok (dir +:+ "/tmp-0")
   end, w).

(** * Properties *)

(** ** Strings *)

Lemma append_cons (c : ascii) (s t : string) : String c s +:+ t = String c (s +:+ t).
Proof. reflexivity. Qed.

Lemma append_empty_r (s : string) : s +:+ "" = s.
Proof.
  induction s as [|c s IH]; [reflexivity|].
  rewrite append_cons, IH. reflexivity.
Qed.

Lemma append_assoc (a b c : string) : (a +:+ b) +:+ c = a +:+ b +:+ c.
Proof.
  induction a as [|x a IH]; [reflexivity|].
  rewrite !append_cons, IH. reflexivity.
Qed.

Lemma includes_intro (pre sub post : string) : includes sub (pre +:+ sub +:+ post).
Proof. exists pre, post. reflexivity. Qed.

Lemma truthy_false (s : string) : truthy s = false <-> s = "".
Proof.
  unfold truthy. rewrite negb_false_iff. apply String.eqb_eq.
Qed.

Lemma truthy_true (s : string) : truthy s = true <-> s <> "".
Proof.
  unfold truthy. rewrite negb_true_iff. apply String.eqb_neq.
Qed.

(** ** Install.vspec *)

Lemma strip_leading_v_first (s : string) :
  first_char (strip_leading_v s) <> Some "v"%char.
Proof.
  induction s as [|c s IH]; simpl; [discriminate|].
  destruct (Ascii.eqb c "v") eqn:E; [exact IH|].
  simpl. intros [= ->]. discriminate.
Qed.

Lemma strip_trailing_v_first (s : string) :
  first_char s <> Some "v"%char -> first_char (strip_trailing_v s) <> Some "v"%char.
Proof.
  destruct s as [|c s]; simpl; [discriminate|].
  intros H. destruct (Ascii.eqb c "v" && all_v s); [discriminate | exact H].
Qed.

Lemma strip_trailing_v_empty (s : string) :
  strip_trailing_v s = "" -> all_v s = true.
Proof.
  destruct s as [|c s]; simpl; [reflexivity|].
  destruct (Ascii.eqb c "v" && all_v s); [reflexivity | discriminate].
Qed.

Lemma strip_trailing_v_last (s : string) :
  last_char (strip_trailing_v s) <> Some "v"%char.
Proof.
  induction s as [|c s IH]; simpl; [discriminate|].
  destruct (Ascii.eqb c "v" && all_v s) eqn:E; simpl; [discriminate|].
  destruct (strip_trailing_v s) as [|d u] eqn:Es; [|exact IH].
  apply strip_trailing_v_empty in Es. rewrite Es, andb_true_r in E.
  intros [= ->]. discriminate.
Qed.

Lemma strip_trailing_v_id (s : string) :
  last_char s <> Some "v"%char -> strip_trailing_v s = s.
Proof.
  induction s as [|c s IH]; simpl; [reflexivity|].
  destruct s as [|d u].
  - intros H. simpl. rewrite andb_true_r.
    destruct (Ascii.eqb_spec c "v") as [->|_]; [now destruct H | reflexivity].
  - intros H. specialize (IH H).
    assert (Hv : all_v (String d u) = false).
    { clear IH. revert d H. induction u as [|x u IHu]; intros d H.
      - simpl. rewrite andb_true_r.
        destruct (Ascii.eqb_spec d "v") as [->|_]; [now destruct H | reflexivity].
      - change (all_v (String d (String x u))) with (Ascii.eqb d "v" && all_v (String x u)).
        rewrite (IHu x H). apply andb_false_r. }
    rewrite Hv, andb_false_r, IH. reflexivity.
Qed.

(** A version that neither starts nor ends with [v] is its own version
    spec, with or without the [v] prefix. *)
Lemma vspec_replace_plain (s : string) :
  first_char s <> Some "v"%char -> last_char s <> Some "v"%char ->
  vspec_replace s = s /\ vspec_replace ("v" +:+ s) = s.
Proof.
  intros Hf Hl.
  assert (E : strip_leading_v s = s).
  { destruct s as [|c s]; [reflexivity|]. simpl.
    destruct (Ascii.eqb_spec c "v") as [->|_]; [now destruct Hf | reflexivity]. }
  unfold vspec_replace. change (strip_leading_v ("v" +:+ s)) with (strip_leading_v s).
  rewrite E. split; apply strip_trailing_v_id, Hl.
Qed.

Lemma strip_leading_v_split (s : string) :
  exists pre, s = pre +:+ strip_leading_v s /\ all_v pre = true.
Proof.
  induction s as [|c s [pre [IH Hpre]]]; [exists ""; split; reflexivity|].
  simpl. destruct (Ascii.eqb_spec c "v") as [->|_].
  - exists (String "v" pre). split; [|exact Hpre].
    rewrite append_cons, <- IH. reflexivity.
  - exists "". split; reflexivity.
Qed.

Lemma strip_trailing_v_split (s : string) :
  exists post, s = strip_trailing_v s +:+ post /\ all_v post = true.
Proof.
  induction s as [|c s [post [IH Hpost]]]; [exists ""; split; reflexivity|].
  simpl. destruct (Ascii.eqb c "v" && all_v s) eqn:E.
  - exists (String c s). split; [reflexivity|].
    apply andb_true_iff in E. simpl. apply andb_true_iff. exact E.
  - exists post. split; [|exact Hpost].
    rewrite append_cons, <- IH. reflexivity.
Qed.

(** C9: normalisation removes the leading and the trailing run of [v] and
    nothing else, so the result neither starts nor ends with [v]; a
    version and the same version behind a [v] prefix normalise to the same
    version spec, which is also what the method [vspec] returns, whatever
    the outside world; [v0.4.1] and [0.4.1] both give [0.4.1]. *)
Theorem vspec_prefix_irrelevant :
  (forall s : string,
      vspec_replace ("v" +:+ s) = vspec_replace s
      /\ (exists pre post,
            s = pre +:+ vspec_replace s +:+ post
            /\ all_v pre = true /\ all_v post = true)
      /\ first_char (vspec_replace s) <> Some "v"%char
      /\ last_char (vspec_replace s) <> Some "v"%char)
  /\ (forall (W : Type) (h : Handler W) (w : W) (s : string),
        (run h (vspec ("v" +:+ s)) w).1.1 = Ok (vspec_replace s)
        /\ (run h (vspec s) w).1.1 = Ok (vspec_replace s))
  /\ vspec_replace "v0.4.1" = "0.4.1"
  /\ vspec_replace "0.4.1" = "0.4.1".
Proof.
  split; [|split; [|split; reflexivity]].
  - intros s. split; [reflexivity|]. unfold vspec_replace. split; [|split].
    + destruct (strip_leading_v_split s) as [pre [Hs Hpre]].
      destruct (strip_trailing_v_split (strip_leading_v s)) as [post [Ht Hpost]].
      exists pre, post. split; [|split; assumption].
      rewrite <- Ht. exact Hs.
    + apply strip_trailing_v_first, strip_leading_v_first.
    + apply strip_trailing_v_last.
  - intros W h w s. split; reflexivity.
Qed.

(** ** Install.filename *)

Lemma filename_unfold (rt : Runtime) (v : string) :
  filename rt v =
    "undock_" +:+ v +:+ "_" +:+
    (if String.eqb (os_platform rt) "win32" then "windows" else os_platform rt) +:+
    "_" +:+ filename_arch rt +:+
    (if String.eqb (os_platform rt) "win32" then ".zip" else ".tar.gz").
Proof.
  unfold filename.
  set (p := if String.eqb (os_platform rt) "win32" then "windows" else os_platform rt).
  set (e := if String.eqb (os_platform rt) "win32" then ".zip" else ".tar.gz").
  change (util_format "undock_%s_%s_%s%s" [v; p; filename_arch rt; e])
    with ("undock_" +:+ v +:+ "_" +:+ p +:+ "_" +:+ filename_arch rt +:+ e +:+ "").
  rewrite append_empty_r. reflexivity.
Qed.

(** C8: the archive name is [undock_{version}_{platform}_{arch}{ext}]:
    platform [windows] and extension [.zip] on win32, the OS identifier and
    [.tar.gz] elsewhere; x64 becomes amd64, ppc64 becomes ppc64le, arm
    becomes armv{revision} or plain arm without a revision, any other
    architecture is kept.  It is a function of its arguments alone. *)
Theorem filename_shape (os arch : string) (rev : option string) (home v : string) :
  let rt := mkRuntime os arch rev home in
  filename rt v =
    "undock_" +:+ v +:+ "_" +:+ (if String.eqb os "win32" then "windows" else os) +:+
    "_" +:+ filename_arch rt +:+ (if String.eqb os "win32" then ".zip" else ".tar.gz")
  /\ (arch = "x64" -> filename_arch rt = "amd64")
  /\ (arch = "ppc64" -> filename_arch rt = "ppc64le")
  /\ (arch = "arm" -> forall r, rev = Some r -> r <> "" -> filename_arch rt = "armv" +:+ r)
  /\ (arch = "arm" -> rev = None \/ rev = Some "" -> filename_arch rt = "arm")
  /\ (arch <> "x64" -> arch <> "ppc64" -> arch <> "arm" -> filename_arch rt = arch)
  /\ filename (mkRuntime "win32" "x64" rev home) v = "undock_" +:+ v +:+ "_windows_amd64.zip"
  /\ filename (mkRuntime "linux" "arm" (Some "7") home) v
     = "undock_" +:+ v +:+ "_linux_armv7.tar.gz".
Proof.
  intros rt. split; [apply filename_unfold|].
  unfold filename_arch, rt; simpl.
  repeat apply conj.
  - intros ->. reflexivity.
  - intros ->. reflexivity.
  - intros -> r -> Hr. simpl. apply truthy_true in Hr. rewrite Hr. reflexivity.
  - intros -> [-> | ->]; reflexivity.
  - intros H1 H2 H3.
    apply String.eqb_neq in H1, H2, H3. rewrite H1, H2, H3. reflexivity.
  - rewrite filename_unfold. reflexivity.
  - rewrite filename_unfold. reflexivity.
Qed.

Lemma filename_shape_witness :
  filename_arch (mkRuntime "linux" "arm64" None "/home/runner") = "arm64"
  /\ filename_arch (mkRuntime "linux" "arm" (Some "6") "/home/runner") = "armv6".
Proof.
  split.
  - apply (filename_shape "linux" "arm64" None "/home/runner" "0.4.1"); discriminate.
  - apply (filename_shape "linux" "arm" (Some "6") "/home/runner" "0.4.1");
      [reflexivity | reflexivity | discriminate].
Defined.

(** ** Cache.platform *)


(** ** Runs *)

Lemma called_inj (ev : Event) (r1 r2 : Result (Resp ev)) :
  called ev r1 = called ev r2 -> r1 = r2.
Proof.
  intros H. inversion H as [H'].
  exact (Eqdep_dec.inj_pair2_eq_dec Event Event_eq_dec _ _ _ _ H').
Qed.

Lemma run_bind {W A B : Type} (h : Handler W) (p : Prog A) (f : A -> Prog B) (w : W) :
  run h (bind p f) w =
    match run h p w with
    | (Ok a, w1, tr1) => let '(r, w2, tr2) := run h (f a) w1 in (r, w2, tr1 ++ tr2)
    | (Err e, w1, tr1) => (Err e, w1, tr1)
    end.
Proof.
  revert w. induction p as [a|e|lvl msg k IH|ev k IH]; intros w; simpl.
  - destruct (run h (f a) w) as [[r w2] tr2]. reflexivity.
  - reflexivity.
  - rewrite IH. destruct (run h k w) as [[[a|e] w1] tr1]; [|reflexivity].
    destruct (run h (f a) w1) as [[r w2] tr2]. reflexivity.
  - destruct (h ev w) as [[x|e] w1]; [|reflexivity].
    rewrite IH. destruct (run h (k x) w1) as [[[a|e] w2] tr1]; [|reflexivity].
    destruct (run h (f a) w2) as [[r w3] tr2]. reflexivity.
Qed.

(** No method catches: the exception an external call throws is the
    result of the run, and the call that threw is the last thing the run
    did. *)
Lemma run_threw {W A : Type} (h : Handler W) (p : Prog A) (w w' : W)
    (r : Result A) (tr : list Obs) (o : Obs) (e : Exn) :
  run h p w = (r, w', tr) -> In o tr -> threw o = Some e ->
  r = Err e /\ exists pre, tr = pre ++ [o].
Proof.
  revert w w' r tr. induction p as [a|e0|lvl msg k IH|ev k IH]; intros w w' r tr; simpl.
  - intros [= <- <- <-] [].
  - intros [= <- <- <-] [].
  - destruct (run h k w) as [[r1 w1] tr1] eqn:E. intros [= <- <- <-] [<-|Hin] Ho.
    + discriminate.
    + destruct (IH _ _ _ _ E Hin Ho) as [-> [pre ->]].
      split; [reflexivity|]. exists (logged lvl msg :: pre). reflexivity.
  - destruct (h ev w) as [[x|e0] w1].
    + destruct (run h (k x) w1) as [[r1 w2] tr1] eqn:E. intros [= <- <- <-] [<-|Hin] Ho.
      * discriminate.
      * destruct (IH _ _ _ _ _ E Hin Ho) as [-> [pre ->]].
        split; [reflexivity|]. exists (called ev (Ok x) :: pre). reflexivity.
    + intros [= <- <- <-] [<-|[]] [= <-].
      split; [reflexivity|]. exists []. reflexivity.
Qed.

(** Symbolic execution of a run in a hypothesis: unfold the monad, ask the
    handler, branch on what it answers. *)
Ltac exec_step H h :=
  cbn [run bind mbind mret Prog_bind Prog_ret call core_debug core_info] in H;
  match type of H with
  | context [h ?ev ?w] =>
      let E := fresh "E" in destruct (h ev w) as [[?|?] ?] eqn:E
  | context [if ?b then _ else _] =>
      let E := fresh "Eb" in destruct b eqn:E
  | context [JSON_parse ?b] =>
      let E := fresh "Ej" in destruct (JSON_parse b) as [?|?] eqn:E
  | context [match ?m !! ?k with _ => _ end] =>
      let E := fresh "El" in destruct (m !! k) as [?|] eqn:E
  | context [property_read ?m ?k] =>
      let E := fresh "El" in destruct (property_read m k) as [?|] eqn:E
  end.

Ltac exec H h := repeat exec_step H h;
  cbn [run bind mbind mret Prog_bind Prog_ret call core_debug core_info] in H;
  repeat match goal with x : Resp _ |- _ => progress (cbn [Resp] in x) end;
  repeat match goal with x : unit |- _ => destruct x end.

(** Which entry of an explicit trace a membership hypothesis speaks of. *)
Ltac pick_in H :=
  repeat match type of H with
  | In _ (_ :: _) => destruct H as [H|H]
  | In _ [] => destruct H
  | logged _ _ = called _ _ => discriminate H
  | called ?ev1 _ = called ?ev2 _ =>
      first
        [ discriminate H
        | apply called_inj in H; first [discriminate H | injection H as H]
        | let Hev := fresh "Hev" in
          assert (Hev : Some ev1 = Some ev2) by exact (f_equal event_of H);
          injection Hev as Hev; subst ]
  end.

(** A run in which no call threw cannot hold a failed call. *)
Ltac no_throw Hok :=
  exfalso;
  match goal with
  | _ : _ ?ev _ = (Err ?e, _) |- _ =>
      assert (Hno : threw (called ev (Err e)) = None)
        by (apply Hok; simpl; tauto);
      discriminate Hno
  end.

(** ** Cache.save *)

(** C1, as the code has it: [save] awaits the upload outside any [try].
    When no call throws, [save] returns the canonical cache path.  When
    the upload to the GitHub Actions cache throws, [save] throws the same
    exception; the copy into the cache directory and the registration in
    the hosted tool cache had both completed by then, and the failed
    upload is the last thing [save] does, so neither is undone. *)
Theorem save_upload_failure_propagates (rt : Runtime) (W : Type) (h : Handler W)
    (w w' : W) (this : Cache) (file : string) (r : Result string) (tr : list Obs) :
  run h (save rt this file) w = (r, w', tr) ->
  ((forall o, In o tr -> threw o = None) -> r = Ok (cachePath this))
  /\ (forall e,
        In (called (cache_saveCache [cacheDir this] (ghaCacheKey this)) (Err e)) tr ->
        r = Err e
        /\ In (called (fs_copyFileSync file (cachePath this)) (Ok tt)) tr
        /\ (exists htcPath,
              In (called (tc_cacheDir (cacheDir this) (htcName (opts this))
                            (htcVersion (opts this)) (platform rt)) (Ok htcPath)) tr)
        /\ exists pre,
             tr = pre ++ [called (cache_saveCache [cacheDir this] (ghaCacheKey this)) (Err e)]).
Proof.
  intros H. split.
  - intros Hok. unfold save, copyToCache in H. exec H h.
    all: injection H as <- <- <-.
    all: first [reflexivity | no_throw Hok].
  - intros e Hin.
    destruct (run_threw h _ _ _ _ _ _ e H Hin eq_refl) as [-> Hlast].
    split; [reflexivity|]. split; [|split; [|exact Hlast]].
    all: unfold save, copyToCache in H; exec H h.
    all: simplify_eq; pick_in Hin.
    all: simpl; eauto 10.
Qed.

(** ** Cache.find *)

(** C2, as the code has it: a miss does not throw.  When the hosted tool
    cache has no entry and the GitHub Actions cache is unavailable or has
    none either, [find] returns the empty string.  An exception thrown by
    a cache layer is not turned into a miss: it is the result of [find].
    What [find] returns is the empty string or the canonical cache path. *)
Theorem find_miss_or_exception (rt : Runtime) (W : Type) (h : Handler W)
    (w w' : W) (this : Cache) (r : Result string) (tr : list Obs) :
  run h (find rt this) w = (r, w', tr) ->
  (In (called (tc_find (htcName (opts this)) (htcVersion (opts this)) (platform rt))
         (Ok "")) tr ->
   In (called cache_isFeatureAvailable (Ok false)) tr
   \/ (exists restored,
         In (called (cache_restoreCache [cacheDir this] (ghaCacheKey this))
               (Ok restored)) tr
         /\ truthy_opt restored = false) ->
   r = Ok "")
  /\ (forall o e, In o tr -> threw o = Some e -> r = Err e)
  /\ (forall p, r = Ok p -> p = "" \/ p = cachePath this).
Proof.
  intros H. split; [|split].
  - intros Hfind Hmiss. unfold find, copyToCache in H. exec H h.
    all: simplify_eq; pick_in Hfind; subst.
    all: try discriminate.
    all: try reflexivity.
    all: destruct Hmiss as [Hm | [o [Hm Ho]]]; pick_in Hm; subst; congruence.
  - intros o e Hin Ho. exact (proj1 (run_threw h _ _ _ _ _ _ _ H Hin Ho)).
  - intros p ->. unfold find, copyToCache in H. exec H h.
    all: simplify_eq; auto.
Qed.

(** ** Install.getRelease *)

Lemma property_read_own (releases : gmap string GitHubRelease) (key : string)
    (release : GitHubRelease) :
  property_read releases key = Some (own_entry release) <-> releases !! key = Some release.
Proof.
  unfold property_read. destruct (releases !! key) as [r0|].
  - split; intros [= ->]; reflexivity.
  - destruct (is_prototype_member key); split; discriminate.
Qed.

Lemma property_read_inherited (releases : gmap string GitHubRelease) (key name : string) :
  property_read releases key = Some (inherited_member name) <->
  name = key /\ releases !! key = None /\ is_prototype_member key = true.
Proof.
  unfold property_read. destruct (releases !! key) as [r0|].
  - split; [discriminate | intros [_ [[=] _]]].
  - destruct (is_prototype_member key).
    + split; [intros [= <-]; auto | intros [-> _]; reflexivity].
    + split; [discriminate | intros [_ [_ [=]]]].
Qed.

Lemma property_read_none (releases : gmap string GitHubRelease) (key : string) :
  property_read releases key = None <->
  releases !! key = None /\ is_prototype_member key = false.
Proof.
  unfold property_read. destruct (releases !! key) as [r0|].
  - split; [discriminate | intros [[=] _]].
  - destruct (is_prototype_member key).
    + split; [discriminate | intros [_ [=]]].
    + split; auto.
Qed.

(** C5, as the code has it.  A call that throws, the fetch or the reading
    of the body, makes [getRelease] throw the same.  When both answered,
    the test on the status is [statusCode >= 400], a missing status
    counting as 500: at such a status [getRelease] throws an error whose
    message holds the releases URL and the status code; at a lower status
    whose body parses to a manifest where the property read of the
    requested version finds nothing, neither an entry nor a member of
    [Object.prototype] of that name, it throws the not-found error, naming
    the version and the URL.  A fetch answered with 404 always ends in an
    exception.  What [getRelease] returns is what that property read
    found in the manifest of a fetch below status 400: the entry for the
    requested version, or, when there is no such entry and the version
    names one, the inherited member of [Object.prototype]. *)
Theorem getRelease_failures {L : Libs} (W : Type) (h : Handler W) (w w' : W)
    (dv : DownloadVersion) (r : Result Member) (tr : list Obs) :
  run h (getRelease dv) w = (r, w', tr) ->
  (forall o e, In o tr -> threw o = Some e -> r = Err e)
  /\ (forall resp,
        In (called (http_get (releasesURL dv)) (Ok resp)) tr ->
        (forall body,
            In (called (readBody resp) (Ok body)) tr ->
            let statusCode := statusCode_or_500 (message_statusCode resp) in
            (400 <= statusCode ->
               exists msg, r = Err (Error msg)
                           /\ includes (releasesURL dv) msg
                           /\ includes (pretty statusCode) msg)
            /\ (statusCode < 400 ->
                 forall releases,
                   JSON_parse body = Ok releases ->
                   releases !! version dv = None ->
                   is_prototype_member (version dv) = false ->
                   exists msg, r = Err (Error msg)
                               /\ includes (version dv) msg
                               /\ includes (releasesURL dv) msg))
        /\ (message_statusCode resp = Some 404 -> exists e, r = Err e))
  /\ (forall m, r = Ok m ->
       exists resp body releases,
         In (called (http_get (releasesURL dv)) (Ok resp)) tr
         /\ In (called (readBody resp) (Ok body)) tr
         /\ statusCode_or_500 (message_statusCode resp) < 400
         /\ JSON_parse body = Ok releases
         /\ match m with
            | own_entry release => releases !! version dv = Some release
            | inherited_member name =>
                name = version dv
                /\ releases !! version dv = None
                /\ is_prototype_member (version dv) = true
            end).
Proof.
  intros H. split; [|split].
  - intros o e Hin Ho. exact (proj1 (run_threw h _ _ _ _ _ _ _ H Hin Ho)).
  - intros resp Hget. split.
    + intros body Hbody statusCode. split.
      * intros Hs. unfold getRelease in H. exec H h.
        all: simplify_eq; pick_in Hget; subst; pick_in Hbody; subst.
        all: try (apply Z.leb_gt in Eb; unfold statusCode in Hs; lia).
        eexists. split; [reflexivity|]. split.
        -- apply includes_intro.
        -- exists ("Failed to get Undock releases from " +:+ releasesURL dv +:+
                   " with status code "), (": " +:+ body).
           rewrite !append_assoc. reflexivity.
      * intros Hs releases Hparse Hnone Hproto.
        assert (Hread : property_read releases (version dv) = None)
          by (apply property_read_none; auto).
        unfold getRelease in H. exec H h.
        all: simplify_eq; pick_in Hget; subst; pick_in Hbody; subst.
        all: try (apply Z.leb_le in Eb; unfold statusCode in Hs; lia).
        all: try congruence.
        eexists. split; [reflexivity|]. split.
        -- apply includes_intro.
        -- exists ("Cannot find Undock release " +:+ version dv +:+ " in "), "".
           rewrite !append_assoc, append_empty_r. reflexivity.
    + intros H404. unfold getRelease in H. exec H h.
      all: simplify_eq; pick_in Hget; subst; eauto.
      all: rewrite H404 in Eb; vm_compute in Eb; discriminate Eb.
  - intros m ->. unfold getRelease in H. exec H h.
    all: simplify_eq.
    match goal with
    | _ : h (http_get _) _ = (Ok ?resp, _), _ : h (readBody _) _ = (Ok ?body, _),
      _ : JSON_parse _ = Ok ?releases |- _ => exists resp, body, releases
    end.
    apply Z.leb_gt in Eb.
    split; [simpl; tauto|]. split; [simpl; tauto|]. split; [exact Eb|].
    split; [assumption|].
    destruct m as [release|name].
    + apply property_read_own. assumption.
    + apply property_read_inherited. assumption.
Qed.

(** ** Inversion of successful runs *)

Lemma run_Log_inv {W A : Type} (h : Handler W) (lvl : Level) (msg : string)
    (k : Prog A) (w w' : W) (r : Result A) (tr : list Obs) :
  run h (Log lvl msg k) w = (r, w', tr) ->
  exists tr0, run h k w = (r, w', tr0) /\ tr = logged lvl msg :: tr0.
Proof.
  simpl. destruct (run h k w) as [[r0 w0] tr0]. intros [= <- <- <-]. eauto.
Qed.

Lemma run_Call_ok_inv {W A : Type} (h : Handler W) (ev : Event)
    (k : Resp ev -> Prog A) (w w' : W) (b : A) (tr : list Obs) :
  run h (Call ev k) w = (Ok b, w', tr) ->
  exists x w1 tr0,
    h ev w = (Ok x, w1) /\ run h (k x) w1 = (Ok b, w', tr0)
    /\ tr = called ev (Ok x) :: tr0.
Proof.
  simpl. destruct (h ev w) as [[x|e] w1]; [|discriminate].
  destruct (run h (k x) w1) as [[r0 w0] tr0] eqn:E. intros [= -> <- <-].
  exists x, w1, tr0. auto.
Qed.

Lemma run_bind_ok_inv {W A B : Type} (h : Handler W) (p : Prog A) (f : A -> Prog B)
    (w w' : W) (b : B) (tr : list Obs) :
  run h (bind p f) w = (Ok b, w', tr) ->
  exists a w1 tr1 tr2,
    run h p w = (Ok a, w1, tr1) /\ run h (f a) w1 = (Ok b, w', tr2)
    /\ tr = tr1 ++ tr2.
Proof.
  rewrite run_bind. destruct (run h p w) as [[[a|e] w1] tr1]; [|discriminate].
  destruct (run h (f a) w1) as [[r0 w0] tr2] eqn:E. intros [= -> <- <-].
  exists a, w1, tr1, tr2. auto.
Qed.

Lemma run_getRelease_ok {L : Libs} (W : Type) (h : Handler W) (w w' : W)
    (dv : DownloadVersion) (m : Member) (tr : list Obs) :
  run h (getRelease dv) w = (Ok m, w', tr) ->
  exists resp body releases,
    In (called (http_get (releasesURL dv)) (Ok resp)) tr
    /\ In (called (readBody resp) (Ok body)) tr
    /\ statusCode_or_500 (message_statusCode resp) < 400
    /\ JSON_parse body = Ok releases
    /\ property_read releases (version dv) = Some m.
Proof.
  intros H. unfold getRelease in H. exec H h.
  all: simplify_eq.
  match goal with
  | _ : h (http_get _) _ = (Ok ?resp, _), _ : h (readBody _) _ = (Ok ?body, _),
    _ : JSON_parse _ = Ok ?releases |- _ => exists resp, body, releases
  end.
  apply Z.leb_gt in Eb. simpl. tauto.
Qed.

Lemma run_Cache_new_ok {L : Libs} (rt : Runtime) (W : Type) (h : Handler W) (w w' : W)
    (o : CacheOpts) (c : Cache) (tr : list Obs) :
  run h (Cache_new rt o) w = (Ok c, w', tr) ->
  cachePath c
  = path_join [path_join [baseCacheDir o; htcVersion o; platform rt]; cacheFile o].
Proof.
  intros H. unfold Cache_new in H. exec H h.
  all: simplify_eq; reflexivity.
Qed.

Lemma run_find_ok (rt : Runtime) (W : Type) (h : Handler W) (w w' : W)
    (this : Cache) (p : string) (tr : list Obs) :
  run h (find rt this) w = (Ok p, w', tr) -> p = "" \/ p = cachePath this.
Proof.
  intros H. unfold find, copyToCache in H. exec H h.
  all: simplify_eq; auto.
Qed.

Lemma run_save_ok (rt : Runtime) (W : Type) (h : Handler W) (w w' : W)
    (this : Cache) (file p : string) (tr : list Obs) :
  run h (save rt this file) w = (Ok p, w', tr) -> p = cachePath this.
Proof.
  intros H. unfold save, copyToCache in H. exec H h.
  all: simplify_eq; reflexivity.
Qed.

(** Inversion of a run known to succeed, one construct at a time. *)
Ltac norm H :=
  unfold mbind, mret, Prog_bind, Prog_ret in H;
  cbv beta in H;
  cbn [bind call core_debug core_info] in H.

Ltac inv_ok H :=
  norm H;
  lazymatch type of H with
  | run _ (Log _ _ _) _ = _ =>
      let tr0 := fresh "tr" in
      apply run_Log_inv in H; destruct H as [tr0 [H ->]]
  | run _ (Call _ _) _ = _ =>
      let x := fresh "x" in let w1 := fresh "w" in let tr0 := fresh "tr" in
      let E := fresh "E" in
      apply run_Call_ok_inv in H; destruct H as [x [w1 [tr0 [E [H ->]]]]]
  | run _ (bind _ _) _ = _ =>
      let a := fresh "a" in let w1 := fresh "w" in
      let tr1 := fresh "tr" in let tr2 := fresh "tr" in let E := fresh "Hrun" in
      apply run_bind_ok_inv in H; destruct H as [a [w1 [tr1 [tr2 [E [H ->]]]]]]
  | run _ (Ret _) _ = _ => injection H as <- <- <-
  | run _ (Throw _) _ = _ => discriminate H
  end.

(** ** Install.download *)

(** C10: a path that [download] returns is the canonical cache path,
    [path.join] of the base directory [{home}/.bin], the version spec of
    the release found in the manifest, the platform string and the file
    name [undock.exe] on win32, [undock] elsewhere, whether the binary was
    found in a cache or was downloaded, extracted and saved. *)
Theorem download_returns_cache_path {L : Libs} (rt : Runtime) (W : Type) (h : Handler W)
    (w w' : W) (v : string) (flag : option bool) (p : string) (tr : list Obs) :
  run h (download rt v flag) w = (Ok p, w', tr) ->
  exists resp body releases release,
    In (called (http_get (releasesURL (undock_download_version v))) (Ok resp)) tr
    /\ In (called (readBody resp) (Ok body)) tr
    /\ JSON_parse body = Ok releases
    /\ releases !! v = Some release
    /\ p = path_join
             [path_join [path_join [os_homedir rt; ".bin"];
                         vspec_replace (tag_name release);
                         platform rt];
              if String.eqb (os_platform rt) "win32" then "undock.exe" else "undock"].
Proof.
  intros H. unfold download, getDownloadVersion, vspec in H.
  do 2 inv_ok H. rename Hrun into Hrel.
  apply run_getRelease_ok in Hrel.
  destruct Hrel as [resp [body [releases [Hget [Hbody [_ [Hparse Hlook]]]]]]].
  inv_ok H. destruct a as [release|name]; [|inv_ok H].
  apply property_read_own in Hlook.
  exists resp, body, releases, release.
  split; [right; apply in_or_app; left; exact Hget|].
  split; [right; apply in_or_app; left; exact Hbody|].
  split; [exact Hparse|]. split; [exact Hlook|].
  do 2 inv_ok H.
  destruct (negb _) in H; [discriminate H|].
  inv_ok H. rename Hrun into Hnew.
  apply run_Cache_new_ok in Hnew. simpl in Hnew. unfold exeName in Hnew.
  inv_ok H. rename Hrun into Hfind. apply run_find_ok in Hfind.
  match type of H with context [truthy ?f] => destruct (truthy f) eqn:Ef end.
  - do 2 inv_ok H. destruct Hfind as [-> | ->]; [discriminate Ef | exact Hnew].
  - do 4 inv_ok H. clear Hrun. do 3 inv_ok H.
    apply run_save_ok in Hrun. do 2 inv_ok H. subst. exact Hnew.
Qed.

(** ** Running forward *)

Ltac norm_goal :=
  unfold mbind, mret, Prog_bind, Prog_ret;
  cbv beta;
  cbn [bind call core_debug core_info].

Lemma run_Log {W A : Type} (h : Handler W) (lvl : Level) (msg : string) (k : Prog A) (w : W) :
  run h (Log lvl msg k) w = let '(r, w', tr) := run h k w in (r, w', logged lvl msg :: tr).
Proof. reflexivity. Qed.

Lemma run_Call_first {W A : Type} (h : Handler W) (ev : Event) (k : Resp ev -> Prog A) (w : W) :
  exists res rest, (run h (Call ev k) w).2 = called ev res :: rest.
Proof.
  simpl. destruct (h ev w) as [[x|e] w1].
  - destruct (run h (k x) w1) as [[r w2] tr]. simpl. eauto.
  - simpl. eauto.
Qed.

Lemma run_bind_first {W A B : Type} (h : Handler W) (p : Prog A) (f : A -> Prog B)
    (w : W) (o : Obs) (rest : list Obs) :
  (run h p w).2 = o :: rest -> exists rest', (run h (bind p f) w).2 = o :: rest'.
Proof.
  rewrite run_bind. destruct (run h p w) as [[[a|e] w1] tr1]; simpl; intros ->.
  - destruct (run h (f a) w1) as [[r w2] tr2]. simpl. eauto.
  - simpl. eauto.
Qed.

Lemma run_getRelease_first {L : Libs} (W : Type) (h : Handler W) (w : W)
    (dv : DownloadVersion) :
  exists res rest,
    (run h (getRelease dv) w).2 = called (http_get (releasesURL dv)) res :: rest.
Proof.
  unfold getRelease. norm_goal. apply run_Call_first.
Qed.

Lemma run_Cache_new_first {L : Libs} (rt : Runtime) (W : Type) (h : Handler W) (w : W)
    (o : CacheOpts) :
  exists res rest,
    (run h (Cache_new rt o) w).2
    = called (fs_existsSync (path_join [baseCacheDir o; htcVersion o; platform rt])) res
        :: rest.
Proof.
  unfold Cache_new. norm_goal. apply run_Call_first.
Qed.

Lemma run_getRelease_answered {L : Libs} (W : Type) (h : Handler W) (w w1 w2 : W)
    (dv : DownloadVersion) (resp : HttpClientResponse) (body : string)
    (releases : gmap string GitHubRelease) :
  h (http_get (releasesURL dv)) w = (Ok resp, w1) ->
  h (readBody resp) w1 = (Ok body, w2) ->
  statusCode_or_500 (message_statusCode resp) < 400 ->
  JSON_parse body = Ok releases ->
  run h (getRelease dv) w =
    (match property_read releases (version dv) with
     | Some found => Ok found
     | None => Err (Error ("Cannot find Undock release " +:+ version dv +:+
                           " in " +:+ releasesURL dv))
     end,
     w2,
     [called (http_get (releasesURL dv)) (Ok resp); called (readBody resp) (Ok body)]).
Proof.
  intros Hget Hbody Hs Hparse. unfold getRelease. norm_goal.
  cbn [run]. rewrite Hget. cbn [run]. rewrite Hbody.
  apply Z.leb_gt in Hs. rewrite Hs, Hparse.
  destruct (property_read releases (version dv)); reflexivity.
Qed.

Ltac resolve_download Hget Hbody Hs Hparse :=
  unfold download, getDownloadVersion, vspec; norm_goal;
  rewrite run_Log, run_bind,
    (run_getRelease_answered _ _ _ _ _ _ _ _ _ Hget Hbody Hs Hparse).

(** C4, as the code has it: [download] fetches the release manifest
    whatever the requested string looks like; the fetch is its first call.
    The version spec is the normalised [tag_name] of the manifest's entry
    for the requested string.  A request the manifest has no entry for
    fails, concrete semantic version or not: with the not-found error,
    or, when the string names a member of [Object.prototype], which the
    property read then finds, with the [TypeError] of normalising the
    [tag_name] that this member does not have. *)
Theorem download_consults_manifest {L : Libs} (rt : Runtime) (W : Type) (h : Handler W)
    (w : W) (v : string) (flag : option bool) :
  let url := releasesURL (undock_download_version v) in
  (exists res rest,
      (run h (download rt v flag) w).2
      = logged Debug ("Install.download version: " +:+ v)
          :: called (http_get url) res :: rest)
  /\ (forall resp w1 body w2 releases,
        h (http_get url) w = (Ok resp, w1) ->
        h (readBody resp) w1 = (Ok body, w2) ->
        statusCode_or_500 (message_statusCode resp) < 400 ->
        JSON_parse body = Ok releases ->
        match releases !! v with
        | None =>
            if is_prototype_member v then
              exists message,
                run h (download rt v flag) w
                = (Err (TypeError message), w2,
                   [logged Debug ("Install.download version: " +:+ v);
                    called (http_get url) (Ok resp);
                    called (readBody resp) (Ok body);
                    logged Debug "Install.download release tag name: undefined"])
            else
              run h (download rt v flag) w
              = (Err (Error ("Cannot find Undock release " +:+ v +:+ " in " +:+ url)),
                 w2,
                 [logged Debug ("Install.download version: " +:+ v);
                  called (http_get url) (Ok resp);
                  called (readBody resp) (Ok body)])
        | Some release =>
            exists rest,
              (run h (download rt v flag) w).2 = resolved_trace v resp body release ++ rest
        end).
Proof.
  intros url. split.
  - unfold download, getDownloadVersion. norm_goal. rewrite run_Log.
    destruct (run_getRelease_first W h w (undock_download_version v)) as [res [rest0 H0]].
    match goal with
    | |- context [run h (bind ?p ?f) w] =>
        destruct (run_bind_first h p f w _ _ H0) as [rest Hrest];
        destruct (run h (bind p f) w) as [[r0 w0] tr0]
    end.
    simpl in Hrest. subst tr0. exists res, rest. reflexivity.
  - intros resp w1 body w2 releases Hget Hbody Hs Hparse.
    resolve_download Hget Hbody Hs Hparse.
    change (version (undock_download_version v)) with v.
    unfold property_read.
    destruct (releases !! v) as [release|].
    + cbn [tag_name_text]. norm_goal. repeat rewrite run_Log.
      match goal with
      | |- context [run h ?p w2] => destruct (run h p w2) as [[r0 w0] tr0]
      end.
      exists tr0. reflexivity.
    + destruct (is_prototype_member v); [eexists|]; reflexivity.
Qed.

(** C6, as the code has it: the only test is [semver.valid] of
    [semver.clean] of the version spec, no version spec is exempt from it
    for looking like a commit SHA.  When the test fails [download] throws
    the invalid-version error, having done nothing but resolve the
    version; when it passes [download] goes on to set up the cache. *)
Theorem download_invalid_version {L : Libs} (rt : Runtime) (W : Type) (h : Handler W)
    (w w1 w2 : W) (v : string) (flag : option bool) (resp : HttpClientResponse)
    (body : string) (releases : gmap string GitHubRelease) (release : GitHubRelease) :
  h (http_get (releasesURL (undock_download_version v))) w = (Ok resp, w1) ->
  h (readBody resp) w1 = (Ok body, w2) ->
  statusCode_or_500 (message_statusCode resp) < 400 ->
  JSON_parse body = Ok releases ->
  releases !! v = Some release ->
  let vs := vspec_replace (tag_name release) in
  let valid := truthy_opt (semver_valid (or_else (semver_clean vs) "")) in
  (valid = false ->
     run h (download rt v flag) w
     = (Err (Error ("Invalid Undock version " +:+ dquote +:+ vs +:+ dquote +:+ ".")),
        w2, resolved_trace v resp body release))
  /\ (valid = true ->
      exists res rest,
        (run h (download rt v flag) w).2
        = resolved_trace v resp body release
          ++ called (fs_existsSync
                       (path_join [path_join [os_homedir rt; ".bin"]; vs; platform rt]))
               res :: rest).
Proof.
  intros Hget Hbody Hs Hparse Hlook vs valid. split; intros Hvalid.
  all: resolve_download Hget Hbody Hs Hparse.
  all: change (version (undock_download_version v)) with v.
  all: rewrite (proj2 (property_read_own releases v release) Hlook).
  all: cbn [tag_name_text]; norm_goal; repeat rewrite run_Log.
  all: fold vs; fold valid; rewrite Hvalid; cbn [negb].
  - reflexivity.
  - match goal with
    | |- context [run h (bind (Cache_new rt ?o) ?f) w2] =>
        destruct (run_Cache_new_first rt W h w2 o) as [res [rest0 H0]];
        destruct (run_bind_first h (Cache_new rt o) f w2 _ _ H0) as [rest Hrest];
        destruct (run h (bind (Cache_new rt o) f) w2) as [[r0 w0] tr0]
    end.
    simpl in Hrest. subst tr0. exists res, rest. reflexivity.
Qed.

(** ** Cache.platform *)

Lemma run_Cache_new_key {L : Libs} (rt : Runtime) (W : Type) (h : Handler W) (w w' : W)
    (o : CacheOpts) (c : Cache) (tr : list Obs) :
  run h (Cache_new rt o) w = (Ok c, w', tr) ->
  ghaCacheKey c = htcName o +:+ "-" +:+ htcVersion o +:+ "-" +:+ platform rt.
Proof.
  intros H. unfold Cache_new in H. exec H h.
  all: simplify_eq; cbn [ghaCacheKey].
  all: change (util_format "%s-%s-%s" [htcName o; htcVersion o; platform rt])
         with (htcName o +:+ "-" +:+ htcVersion o +:+ "-" +:+ platform rt +:+ "").
  all: rewrite append_empty_r; reflexivity.
Qed.



(** ** Closed runs *)

Lemma save_upload_failure_propagates_witness :
  (run (scripted upload_down) (save linux_x64 cache_1_2_3 extracted_exe) tt).1.1
  = Err service_error
  /\ In (called (fs_copyFileSync extracted_exe (cachePath cache_1_2_3)) (Ok tt))
        (run (scripted upload_down) (save linux_x64 cache_1_2_3 extracted_exe) tt).2.
Proof.
  destruct (save_upload_failure_propagates linux_x64 unit (scripted upload_down) tt tt
              cache_1_2_3 extracted_exe (Err service_error)
              (run (scripted upload_down) (save linux_x64 cache_1_2_3 extracted_exe) tt).2
              eq_refl) as [_ Hfail].
  destruct (Hfail service_error) as [Hr [Hcopy _]].
  - vm_compute. tauto.
  - split; [reflexivity | exact Hcopy].
Defined.

(** C1 as stated fails: with the GitHub Actions cache available and the
    upload failing, [save] does not return the cache path, it throws. *)
Lemma save_fails_when_upload_fails :
  on_isFeatureAvailable upload_down = true
  /\ (run (scripted upload_down) (save linux_x64 cache_1_2_3 extracted_exe) tt).1.1
     = Err service_error
  /\ (run (scripted upload_down) (save linux_x64 cache_1_2_3 extracted_exe) tt).1.1
     <> Ok (cachePath cache_1_2_3).
Proof.
  split; [reflexivity|]. split; [reflexivity | discriminate].
Qed.

Lemma find_miss_or_exception_witness :
  (run (scripted fresh_runner) (find linux_x64 cache_1_2_3) tt).1.1 = Ok "".
Proof.
  refine (proj1 (find_miss_or_exception linux_x64 unit (scripted fresh_runner) tt tt
                   cache_1_2_3 _
                   (run (scripted fresh_runner) (find linux_x64 cache_1_2_3) tt).2
                   eq_refl) _ _).
  - vm_compute. tauto.
  - right. exists None. split; [vm_compute; tauto | reflexivity].
Defined.

(** C2 as stated fails: an exception of the GitHub Actions cache during
    [find] is not a miss, [find] throws it. *)
Lemma find_throws_when_restore_throws :
  (run (scripted restore_down) (find linux_x64 cache_1_2_3) tt).1.1 = Err service_error
  /\ (run (scripted restore_down) (find linux_x64 cache_1_2_3) tt).1.1 <> Ok "".
Proof.
  split; [reflexivity | discriminate].
Qed.

(** C3: no method of [Cache] reads [ghaNoCache]: [save] and [find] are
    the same programs whatever the flag.  On a fresh runner with the
    GitHub Actions cache available, [download] with [ghaNoCache = true]
    uploads to it all the same. *)
Theorem save_ignores_ghaNoCache :
  (forall (rt : Runtime) (this : Cache) (file : string) (flag : option bool),
      save rt (with_ghaNoCache this flag) file = save rt this file)
  /\ (forall (rt : Runtime) (this : Cache) (flag : option bool),
        find rt (with_ghaNoCache this flag) = find rt this)
  /\ In (called (cache_saveCache ["/home/runner/.bin/1.2.3/linux-x64"]
                   "undock-dl-bin-1.2.3-linux-x64") (Ok 1))
        (run (scripted fresh_runner) (download linux_x64 (L:=libs0) "latest" (Some true)) tt).2
  /\ (run (scripted fresh_runner) (download linux_x64 (L:=libs0) "latest" (Some true)) tt)
     = (run (scripted fresh_runner) (download linux_x64 (L:=libs0) "latest" None) tt).
Proof.
  split; [reflexivity|]. split; [reflexivity|]. split.
  - vm_compute. tauto.
  - vm_compute. reflexivity.
Qed.

Lemma download_consults_manifest_witness :
  exists rest,
    (run (scripted fresh_runner) (download linux_x64 (L:=libs0) "latest" None) tt).2
    = resolved_trace "latest" (mkResponse (Some 200) releases_doc) releases_doc
        (mkRelease "v1.2.3") ++ rest.
Proof.
  exact (proj2 (download_consults_manifest (L:=libs0) linux_x64 unit
                  (scripted fresh_runner) tt "latest" None)
           (mkResponse (Some 200) releases_doc) tt releases_doc tt releases_json
           eq_refl eq_refl eq_refl eq_refl).
Defined.

(** C4 as stated fails: asked for the concrete version 2.0.0, [download]
    fetches the manifest, and takes the version spec from the entry found
    there, 2.0.1 in this manifest; asked for the concrete version 3.0.0,
    which the manifest does not list, it fails. *)
Lemma download_concrete_version_reads_manifest :
  Semver.valid "2.0.0" = Some "2.0.0"
  /\ In (called (http_get undock_releases_url)
           (Ok (mkResponse (Some 200) releases_doc)))
        (run (scripted fresh_runner) (download linux_x64 (L:=libs0) "2.0.0" None) tt).2
  /\ In (logged Debug "Install.download vspec: 2.0.1")
        (run (scripted fresh_runner) (download linux_x64 (L:=libs0) "2.0.0" None) tt).2
  /\ vspec_replace "2.0.0" <> "2.0.1"
  /\ (run (scripted fresh_runner) (download linux_x64 (L:=libs0) "3.0.0" None) tt).1.1
     = Err (Error ("Cannot find Undock release 3.0.0 in " +:+ undock_releases_url)).
Proof.
  split; [reflexivity|]. split; [vm_compute; tauto|]. split; [vm_compute; tauto|].
  split; [discriminate | reflexivity].
Qed.

Lemma getRelease_failures_witness :
  exists msg,
    (run (scripted (manifest_status 404 "Not Found"))
       (getRelease (L:=libs0) (undock_download_version "9.9.9")) tt).1.1
    = Err (Error msg)
    /\ includes undock_releases_url msg
    /\ includes "404" msg.
Proof.
  refine (proj1 (proj1 (proj1 (proj2 (getRelease_failures (L:=libs0) unit
                   (scripted (manifest_status 404 "Not Found")) tt tt
                   (undock_download_version "9.9.9") _
                   (run (scripted (manifest_status 404 "Not Found"))
                      (getRelease (L:=libs0) (undock_download_version "9.9.9")) tt).2
                   eq_refl))
                 (mkResponse (Some 404) "Not Found") _) "Not Found" _) _).
  - vm_compute. tauto.
  - vm_compute. tauto.
  - vm_compute. discriminate.
Defined.

(** C5 as stated fails: 300 is not a success status, yet [getRelease]
    does not throw on it, the body is parsed as if the fetch had
    succeeded; and asked for the version [constructor], which the manifest
    does not list, it throws no not-found error but returns the member of
    that name of [Object.prototype]. *)
Lemma getRelease_returns_at_status_300 :
  is_success_status 300 = false
  /\ (run (scripted (manifest_status 300 releases_doc))
        (getRelease (L:=libs0) (undock_download_version "latest")) tt).1.1
     = Ok (own_entry (mkRelease "v1.2.3"))
  /\ releases_json !! "constructor" = None
  /\ (run (scripted fresh_runner)
        (getRelease (L:=libs0) (undock_download_version "constructor")) tt).1.1
     = Ok (inherited_member "constructor").
Proof.
  split; [reflexivity|]. split; [reflexivity|]. split; reflexivity.
Qed.

Lemma download_invalid_version_witness :
  run (scripted fresh_runner) (download linux_x64 (L:=libs0) "edge" None) tt
  = (Err (Error ("Invalid Undock version " +:+ dquote +:+ commit_sha +:+ dquote +:+ ".")),
     tt,
     resolved_trace "edge" (mkResponse (Some 200) releases_doc) releases_doc
       (mkRelease commit_sha)).
Proof.
  refine (proj1 (download_invalid_version (L:=libs0) linux_x64 unit
                   (scripted fresh_runner) tt tt tt "edge" None
                   (mkResponse (Some 200) releases_doc) releases_doc releases_json
                   (mkRelease commit_sha) eq_refl eq_refl eq_refl eq_refl eq_refl) _).
  reflexivity.
Defined.

(** C6 as stated fails: a version spec that is a commit SHA gets the
    invalid-version error. *)
Lemma download_rejects_commit_sha :
  is_commit_sha commit_sha = true
  /\ vspec_replace commit_sha = commit_sha
  /\ (run (scripted fresh_runner) (download linux_x64 (L:=libs0) "edge" None) tt).1.1
     = Err (Error ("Invalid Undock version " +:+ dquote +:+ commit_sha +:+ dquote +:+ ".")).
Proof.
  split; [reflexivity|]. split; reflexivity.
Qed.


Lemma download_returns_cache_path_witness :
  exists resp body releases release,
    In (called (http_get (releasesURL (undock_download_version "latest"))) (Ok resp))
       (run (scripted fresh_runner) (download linux_x64 (L:=libs0) "latest" None) tt).2
    /\ In (called (readBody resp) (Ok body))
          (run (scripted fresh_runner) (download linux_x64 (L:=libs0) "latest" None) tt).2
    /\ parse_document releases_doc releases_json body = Ok releases
    /\ releases !! "latest" = Some release
    /\ "/home/runner/.bin/1.2.3/linux-x64/undock"
       = posix_join
           [posix_join [posix_join ["/home/runner"; ".bin"];
                        vspec_replace (tag_name release); platform linux_x64];
            "undock"].
Proof.
  exact (download_returns_cache_path (L:=libs0) linux_x64 unit (scripted fresh_runner)
           tt tt "latest" None "/home/runner/.bin/1.2.3/linux-x64/undock"
           (run (scripted fresh_runner) (download linux_x64 (L:=libs0) "latest" None) tt).2
           eq_refl).
Defined.

(** Both branches of [download] end on the same path: the download on a
    fresh runner, the hit in the hosted tool cache on a warm one. *)
Example download_miss_and_hit :
  (run (scripted fresh_runner) (download linux_x64 (L:=libs0) "latest" None) tt).1.1
  = Ok "/home/runner/.bin/1.2.3/linux-x64/undock"
  /\ (run (scripted warm_runner) (download linux_x64 (L:=libs0) "latest" None) tt).1.1
     = Ok "/home/runner/.bin/1.2.3/linux-x64/undock"
  /\ In (called (tc_downloadTool
                   "https://github.com/crazy-max/undock/releases/download/v1.2.3/undock_1.2.3_linux_amd64.tar.gz")
           (Ok "/tmp/dl/archive"))
        (run (scripted fresh_runner) (download linux_x64 (L:=libs0) "latest" None) tt).2
  /\ In (called (fs_copyFileSync (hosted_dir +:+ "/undock")
                   "/home/runner/.bin/1.2.3/linux-x64/undock") (Ok tt))
        (run (scripted warm_runner) (download linux_x64 (L:=libs0) "latest" None) tt).2.
Proof.
  split; [reflexivity|]. split; [reflexivity|]. split; vm_compute; tauto.
Qed.

Example semver_examples :
  Semver.clean "v1.2.3-rc.1+build.5" = Some "1.2.3-rc.1"
  /\ Semver.clean " =v1.2.3 " = Some "1.2.3"
  /\ Semver.valid "1.2" = None
  /\ Semver.valid "01.2.3" = None
  /\ Semver.valid "" = None
  /\ Semver.clean commit_sha = None.
Proof. repeat split; reflexivity. Qed.

(** * Further properties *)

(** ** Install.vspec, continued *)

Lemma all_v_strip_leading (s : string) : all_v s = true -> strip_leading_v s = "".
Proof.
  induction s as [|c s IH]; simpl; [reflexivity|].
  destruct (Ascii.eqb c "v"); simpl; [exact IH | discriminate].
Qed.

Lemma strip_leading_v_all_v (s : string) :
  all_v (strip_leading_v s) = true -> all_v s = true.
Proof.
  induction s as [|c s IH]; simpl; [reflexivity|].
  destruct (Ascii.eqb c "v") eqn:E; simpl; [exact IH|].
  rewrite E. discriminate.
Qed.

(** X1: normalising twice is normalising once, so a version spec taken
    from a tag and normalised again names the same cache entry. *)
Theorem vspec_replace_idempotent (s : string) :
  vspec_replace (vspec_replace s) = vspec_replace s.
Proof.
  apply vspec_replace_plain.
  - unfold vspec_replace. apply strip_trailing_v_first, strip_leading_v_first.
  - unfold vspec_replace. apply strip_trailing_v_last.
Qed.

(** X2: the version spec is empty exactly for the tags made of nothing
    but [v], the empty tag among them. *)
Theorem vspec_replace_empty_iff (s : string) :
  vspec_replace s = "" <-> all_v s = true.
Proof.
  unfold vspec_replace. split.
  - intros H. apply strip_trailing_v_empty in H. apply strip_leading_v_all_v, H.
  - intros H. rewrite (all_v_strip_leading s H). reflexivity.
Qed.

Lemma all_v_snoc (s : string) : all_v (s +:+ "v") = all_v s.
Proof.
  induction s as [|c s IH]; [reflexivity|].
  rewrite append_cons. simpl. rewrite IH. reflexivity.
Qed.

Lemma strip_trailing_v_snoc (s : string) :
  strip_trailing_v (s +:+ "v") = strip_trailing_v s.
Proof.
  induction s as [|c s IH]; [reflexivity|].
  rewrite append_cons. simpl. rewrite all_v_snoc, IH. reflexivity.
Qed.

(** X3: a [v] at the end of a tag is dropped like one at the start: the
    tag with one more [v] behind it has the same version spec, so a tag
    such as [1.0.0-dev] resolves to [1.0.0-de]. *)
Theorem vspec_replace_trailing_v (s : string) :
  vspec_replace (s +:+ "v") = vspec_replace s
  /\ vspec_replace "1.0.0-dev" = "1.0.0-de".
Proof.
  split; [|reflexivity]. unfold vspec_replace.
  destruct (all_v s) eqn:E.
  - rewrite (all_v_strip_leading s E).
    rewrite (all_v_strip_leading (s +:+ "v")); [reflexivity|].
    rewrite all_v_snoc. exact E.
  - assert (H : strip_leading_v (s +:+ "v") = strip_leading_v s +:+ "v").
    { induction s as [|c s IH]; [discriminate E|].
      rewrite append_cons. simpl in *.
      destruct (Ascii.eqb c "v"); simpl in *; [apply IH, E | reflexivity]. }
    rewrite H. apply strip_trailing_v_snoc.
Qed.

(** ** Cache, continued *)

(** Which call an entry of an explicit trace is, whatever it answered. *)
Ltac event_in H :=
  repeat match type of H with
  | In _ (_ :: _) => destruct H as [H|H]
  | In _ [] => destruct H
  | logged _ _ = called _ _ => discriminate H
  | called _ _ = called _ _ =>
      apply (f_equal event_of) in H; simpl in H; simplify_eq
  end.

(** Which entry of an explicit trace a membership hypothesis speaks of,
    when the call sought is not fully known. *)
Ltac locate H :=
  repeat match type of H with
  | In _ (_ :: _) => destruct H as [H|H]
  | In _ [] => destruct H
  | logged _ _ = called _ _ => discriminate H
  | called ?ev1 _ = called ?ev2 _ =>
      let Hev := fresh "Hev" in
      assert (Hev : Some ev1 = Some ev2) by exact (f_equal event_of H);
      first
        [ discriminate Hev
        | clear Hev; apply called_inj in H; simplify_eq
        | injection Hev as Hev; try (injection Hev; clear Hev; intros); subst;
          apply called_inj in H; simplify_eq ]
  end.

(** The answer a test of [!b] was taken on. *)
Ltac bools :=
  repeat match goal with
  | Hb : negb ?a = _ |- _ => destruct a; simpl in Hb; try discriminate Hb; clear Hb
  end.

(** X4: the constructor looks whether the cache directory exists and
    creates it only when it does not; it makes no other call, and the
    object it builds holds the options, the key [name-version-platform],
    the directory [baseCacheDir/version/platform] and the file path in
    it. *)
Theorem Cache_new_creates_missing_dir {L : Libs} (rt : Runtime) (W : Type)
    (h : Handler W) (w w' : W) (o : CacheOpts) (r : Result Cache) (tr : list Obs) :
  run h (Cache_new rt o) w = (r, w', tr) ->
  let dir := path_join [baseCacheDir o; htcVersion o; platform rt] in
  (forall ev res, In (called ev res) tr -> ev = fs_existsSync dir \/ ev = fs_mkdirSync dir)
  /\ (forall res, In (called (fs_mkdirSync dir) res) tr ->
                  In (called (fs_existsSync dir) (Ok false)) tr)
  /\ (In (called (fs_existsSync dir) (Ok true)) tr ->
      tr = [called (fs_existsSync dir) (Ok true)])
  /\ (forall this, r = Ok this ->
        opts this = o
        /\ ghaCacheKey this = htcName o +:+ "-" +:+ htcVersion o +:+ "-" +:+ platform rt
        /\ cacheDir this = dir
        /\ cachePath this = path_join [dir; cacheFile o]).
Proof.
  intros H dir. subst dir. repeat apply conj.
  - intros ev res Hin. unfold Cache_new in H. exec H h.
    all: simplify_eq; event_in Hin; auto.
  - intros res Hin. unfold Cache_new in H. exec H h.
    all: simplify_eq; event_in Hin; bools; simpl; auto.
  - intros Hin. unfold Cache_new in H. exec H h.
    all: simplify_eq; pick_in Hin; bools; try discriminate; reflexivity.
  - intros this ->. split; [|split; [exact (run_Cache_new_key rt W h w w' o this tr H)|]].
    all: unfold Cache_new in H; exec H h.
    all: simplify_eq; auto.
Qed.

Lemma Cache_new_creates_missing_dir_witness :
  In (called (fs_existsSync "/home/runner/.bin/1.2.3/linux-x64") (Ok false))
     (run (scripted fresh_runner)
        (Cache_new (L:=libs0) linux_x64 (opts cache_1_2_3)) tt).2.
Proof.
  refine (proj1 (proj2 (Cache_new_creates_missing_dir (L:=libs0) linux_x64 unit
            (scripted fresh_runner) tt tt (opts cache_1_2_3) _
            (run (scripted fresh_runner)
               (Cache_new (L:=libs0) linux_x64 (opts cache_1_2_3)) tt).2 eq_refl))
            (Ok tt) _).
  vm_compute. tauto.
Defined.

(** X5: when the hosted tool cache has the tool, [find] asks nobody else:
    its only other call copies [{htcPath}/{cacheFile}] to the cache path,
    and what it returns is the cache path. *)
Theorem find_hit_is_local (rt : Runtime) (W : Type) (h : Handler W) (w w' : W)
    (this : Cache) (r : Result string) (tr : list Obs) (htcPath : string) :
  run h (find rt this) w = (r, w', tr) ->
  In (called (tc_find (htcName (opts this)) (htcVersion (opts this)) (platform rt))
        (Ok htcPath)) tr ->
  htcPath <> "" ->
  (forall ev res, In (called ev res) tr ->
     ev = tc_find (htcName (opts this)) (htcVersion (opts this)) (platform rt)
     \/ ev = fs_copyFileSync (htcPath +:+ "/" +:+ cacheFile (opts this)) (cachePath this))
  /\ (forall p, r = Ok p ->
        p = cachePath this
        /\ In (called (fs_copyFileSync (htcPath +:+ "/" +:+ cacheFile (opts this))
                         (cachePath this)) (Ok tt)) tr).
Proof.
  intros H Hfind Hne. apply truthy_true in Hne. split.
  - intros ev res Hin. unfold find, copyToCache in H. exec H h.
    all: simplify_eq; pick_in Hfind; subst; try congruence.
    all: event_in Hin; auto.
  - intros p ->. unfold find, copyToCache in H. exec H h.
    all: simplify_eq; pick_in Hfind; subst; try congruence.
    all: split; [reflexivity | simpl; auto].
Qed.

Lemma find_hit_is_local_witness :
  (run (scripted warm_runner) (find linux_x64 cache_1_2_3) tt).1.1
  = Ok (cachePath cache_1_2_3).
Proof.
  assert (Hp : "/home/runner/.bin/1.2.3/linux-x64/undock" = cachePath cache_1_2_3
               /\ In (called (fs_copyFileSync (hosted_dir +:+ "/" +:+ "undock")
                                (cachePath cache_1_2_3)) (Ok tt))
                     (run (scripted warm_runner) (find linux_x64 cache_1_2_3) tt).2).
  { refine (proj2 (find_hit_is_local linux_x64 unit (scripted warm_runner) tt tt
                     cache_1_2_3 _
                     (run (scripted warm_runner) (find linux_x64 cache_1_2_3) tt).2
                     hosted_dir eq_refl _ _) _ eq_refl).
    - vm_compute. tauto.
    - discriminate. }
  reflexivity.
Defined.

(** X6: [find] turns to the GitHub Actions cache only after the hosted
    tool cache had nothing and the backend said it was available.  When
    the restore brings something back, [find] registers the cache
    directory in the hosted tool cache and what it returns is the cache
    path, copied from the registered directory. *)
Theorem find_restores_after_local_miss (rt : Runtime) (W : Type) (h : Handler W)
    (w w' : W) (this : Cache) (r : Result string) (tr : list Obs)
    (paths : list string) (key : string) (res : Result (option string)) :
  run h (find rt this) w = (r, w', tr) ->
  In (called (cache_restoreCache paths key) res) tr ->
  paths = [cacheDir this] /\ key = ghaCacheKey this
  /\ In (called (tc_find (htcName (opts this)) (htcVersion (opts this)) (platform rt))
           (Ok "")) tr
  /\ In (called cache_isFeatureAvailable (Ok true)) tr
  /\ (forall restored p,
        res = Ok restored -> truthy_opt restored = true -> r = Ok p ->
        p = cachePath this
        /\ exists htcPath,
             In (called (tc_cacheDir (cacheDir this) (htcName (opts this))
                           (htcVersion (opts this)) (platform rt)) (Ok htcPath)) tr
             /\ In (called (fs_copyFileSync (htcPath +:+ "/" +:+ cacheFile (opts this))
                              (cachePath this)) (Ok tt)) tr).
Proof.
  intros H Hin. unfold find, copyToCache in H. exec H h.
  all: simplify_eq; locate Hin.
  all: repeat match goal with
       | Ht : truthy ?s = false |- _ => apply truthy_false in Ht; subst s
       end.
  all: split; [reflexivity|]; split; [reflexivity|].
  all: split; [simpl; tauto|]; split; [simpl; tauto|].
  all: intros restored p Hres Hr Hp; simplify_eq; try congruence.
  all: split; [reflexivity|]; eexists; split; simpl; eauto 10.
Qed.

Lemma find_restores_after_local_miss_witness :
  In (called cache_isFeatureAvailable (Ok true))
     (run (scripted fresh_runner) (find linux_x64 cache_1_2_3) tt).2.
Proof.
  refine (proj1 (proj2 (proj2 (proj2
            (find_restores_after_local_miss linux_x64 unit (scripted fresh_runner) tt tt
               cache_1_2_3 _
               (run (scripted fresh_runner) (find linux_x64 cache_1_2_3) tt).2
               [cacheDir cache_1_2_3] (ghaCacheKey cache_1_2_3) (Ok None)
               eq_refl _))))).
  vm_compute. tauto.
Defined.

(** X7: [find] only reads the two caches and fills the cache path: it
    never uploads to the GitHub Actions cache, never creates a directory,
    never downloads or extracts, never fetches the manifest, and every
    file copy it makes writes the cache path. *)
Theorem find_never_publishes (rt : Runtime) (W : Type) (h : Handler W) (w : W)
    (this : Cache) (ev : Event) (res : Result (Resp ev)) :
  In (called ev res) (run h (find rt this) w).2 ->
  match ev with
  | tc_find _ _ _ | cache_isFeatureAvailable | cache_restoreCache _ _
  | tc_cacheDir _ _ _ _ => True
  | fs_copyFileSync _ dest => dest = cachePath this
  | _ => False
  end.
Proof.
  intros Hin. destruct (run h (find rt this) w) as [[r w'] tr] eqn:H. simpl in Hin.
  unfold find, copyToCache in H. exec H h.
  all: simplify_eq; event_in Hin; exact I || reflexivity.
Qed.

Lemma find_never_publishes_witness :
  cachePath cache_1_2_3 = cachePath cache_1_2_3.
Proof.
  exact (find_never_publishes linux_x64 unit (scripted warm_runner) tt cache_1_2_3
           (fs_copyFileSync (hosted_dir +:+ "/undock") (cachePath cache_1_2_3)) (Ok tt)
           ltac:(vm_compute; tauto)).
Defined.

(** ** Cache.save, continued *)

(** X8: [save] uploads to the GitHub Actions cache only when the backend
    said it was available, and then the cache directory under the key of
    the cache object; when the backend is not available there is no
    upload and [save] returns the cache path. *)
Theorem save_uploads_when_available (rt : Runtime) (W : Type) (h : Handler W)
    (w w' : W) (this : Cache) (file : string) (r : Result string) (tr : list Obs) :
  run h (save rt this file) w = (r, w', tr) ->
  (forall paths key res,
      In (called (cache_saveCache paths key) res) tr ->
      paths = [cacheDir this] /\ key = ghaCacheKey this
      /\ In (called cache_isFeatureAvailable (Ok true)) tr)
  /\ (In (called cache_isFeatureAvailable (Ok false)) tr ->
      r = Ok (cachePath this)
      /\ forall paths key res, ~ In (called (cache_saveCache paths key) res) tr).
Proof.
  intros H. split.
  - intros paths key res Hin. unfold save, copyToCache in H. exec H h.
    all: simplify_eq; locate Hin.
    all: split; [reflexivity|]; split; [reflexivity|]; simpl; tauto.
  - intros Hin. unfold save, copyToCache in H. exec H h.
    all: simplify_eq; pick_in Hin; try discriminate.
    split; [reflexivity|]. intros paths key res Hin'. locate Hin'.
Qed.

Lemma save_uploads_when_available_witness :
  In (called cache_isFeatureAvailable (Ok true))
     (run (scripted fresh_runner) (save linux_x64 cache_1_2_3 extracted_exe) tt).2.
Proof.
  refine (proj2 (proj2 (proj1
            (save_uploads_when_available linux_x64 unit (scripted fresh_runner) tt tt
               cache_1_2_3 extracted_exe _
               (run (scripted fresh_runner) (save linux_x64 cache_1_2_3 extracted_exe) tt).2
               eq_refl)
            [cacheDir cache_1_2_3] (ghaCacheKey cache_1_2_3) (Ok 1) _))).
  vm_compute. tauto.
Defined.

(** X9: [save] works in order and stops at the first failure: the
    registration in the hosted tool cache comes only after the file was
    copied to the cache path, the upload only after the registration; when
    the copy throws, nothing is registered and nothing uploaded. *)
Theorem save_steps_in_order (rt : Runtime) (W : Type) (h : Handler W)
    (w w' : W) (this : Cache) (file : string) (r : Result string) (tr : list Obs) :
  run h (save rt this file) w = (r, w', tr) ->
  (forall src dest res,
      In (called (fs_copyFileSync src dest) res) tr -> src = file /\ dest = cachePath this)
  /\ (forall d n ver p res,
        In (called (tc_cacheDir d n ver p) res) tr ->
        d = cacheDir this
        /\ In (called (fs_copyFileSync file (cachePath this)) (Ok tt)) tr)
  /\ (forall paths key res,
        In (called (cache_saveCache paths key) res) tr ->
        exists htcPath,
          In (called (tc_cacheDir (cacheDir this) (htcName (opts this))
                        (htcVersion (opts this)) (platform rt)) (Ok htcPath)) tr)
  /\ (forall e,
        In (called (fs_copyFileSync file (cachePath this)) (Err e)) tr ->
        r = Err e
        /\ forall ev res, In (called ev res) tr ->
                          ev = fs_copyFileSync file (cachePath this)).
Proof.
  intros H. repeat apply conj.
  - intros src dest res Hin. unfold save, copyToCache in H. exec H h.
    all: simplify_eq; locate Hin; auto.
  - intros d n ver p res Hin. unfold save, copyToCache in H. exec H h.
    all: simplify_eq; locate Hin; simpl; auto.
  - intros paths key res Hin. unfold save, copyToCache in H. exec H h.
    all: simplify_eq; locate Hin; eexists; simpl; eauto 10.
  - intros e Hin. unfold save, copyToCache in H. exec H h.
    all: simplify_eq; pick_in Hin; try discriminate.
    split; [congruence|]. intros ev res Hin'. event_in Hin'. reflexivity.
Qed.

Lemma save_steps_in_order_witness :
  cacheDir cache_1_2_3 = cacheDir cache_1_2_3
  /\ In (called (fs_copyFileSync extracted_exe (cachePath cache_1_2_3)) (Ok tt))
        (run (scripted fresh_runner) (save linux_x64 cache_1_2_3 extracted_exe) tt).2.
Proof.
  refine (proj1 (proj2
            (save_steps_in_order linux_x64 unit (scripted fresh_runner) tt tt
               cache_1_2_3 extracted_exe _
               (run (scripted fresh_runner) (save linux_x64 cache_1_2_3 extracted_exe) tt).2
               eq_refl))
            (cacheDir cache_1_2_3) "undock-dl-bin" "1.2.3" "linux-x64" (Ok hosted_dir) _).
  vm_compute. tauto.
Defined.

(** ** Install.getRelease, continued *)



(** X11: below status 400 a body that is not a JSON document makes
    [getRelease] throw what [JSON.parse] threw, as it is: no release is
    returned and the error is not wrapped. *)
Theorem getRelease_malformed_manifest {L : Libs} (W : Type) (h : Handler W) (w w' : W)
    (dv : DownloadVersion) (r : Result Member) (tr : list Obs)
    (resp : HttpClientResponse) (body : string) (e : Exn) :
  run h (getRelease dv) w = (r, w', tr) ->
  In (called (http_get (releasesURL dv)) (Ok resp)) tr ->
  In (called (readBody resp) (Ok body)) tr ->
  statusCode_or_500 (message_statusCode resp) < 400 ->
  JSON_parse body = Err e ->
  r = Err e.
Proof.
  intros H Hget Hbody Hs Hparse. unfold getRelease in H. exec H h.
  all: simplify_eq; pick_in Hget; subst; pick_in Hbody; subst.
  all: try (apply Z.leb_le in Eb; lia).
  all: congruence.
Qed.

Lemma getRelease_malformed_manifest_witness :
  (run (scripted (manifest_status 200 "<html>"))
     (getRelease (L:=libs0) (undock_download_version "latest")) tt).1.1
  = Err (SyntaxError "Unexpected token in JSON").
Proof.
  refine (getRelease_malformed_manifest (L:=libs0) unit
            (scripted (manifest_status 200 "<html>")) tt tt
            (undock_download_version "latest") _
            (run (scripted (manifest_status 200 "<html>"))
               (getRelease (L:=libs0) (undock_download_version "latest")) tt).2
            (mkResponse (Some 200) "<html>") "<html>" _ eq_refl _ _ _ eq_refl).
  - vm_compute. tauto.
  - vm_compute. tauto.
  - vm_compute. reflexivity.
Defined.

(** X12: [getRelease] talks to the manifest server and to nothing else:
    one GET of the releases URL, then the reading of the body of the
    response it got; it touches no file and no cache. *)
Theorem getRelease_only_fetches {L : Libs} (W : Type) (h : Handler W) (w : W)
    (dv : DownloadVersion) (ev : Event) (res : Result (Resp ev)) :
  In (called ev res) (run h (getRelease dv) w).2 ->
  ev = http_get (releasesURL dv)
  \/ exists resp,
       ev = readBody resp
       /\ In (called (http_get (releasesURL dv)) (Ok resp)) (run h (getRelease dv) w).2.
Proof.
  intros Hin. destruct (run h (getRelease dv) w) as [[r w'] tr] eqn:H. simpl in *.
  unfold getRelease in H. exec H h.
  all: simplify_eq; event_in Hin; auto.
  all: right; eexists; split; [reflexivity | simpl; auto].
Qed.

Lemma getRelease_only_fetches_witness :
  readBody (mkResponse (Some 200) releases_doc) = http_get undock_releases_url
  \/ exists resp,
       readBody (mkResponse (Some 200) releases_doc) = readBody resp
       /\ In (called (http_get undock_releases_url) (Ok resp))
             (run (scripted fresh_runner)
                (getRelease (L:=libs0) (undock_download_version "latest")) tt).2.
Proof.
  exact (getRelease_only_fetches (L:=libs0) unit (scripted fresh_runner) tt
           (undock_download_version "latest")
           (readBody (mkResponse (Some 200) releases_doc)) (Ok releases_doc)
           ltac:(vm_compute; tauto)).
Defined.

(** ** Install.download, continued *)

Lemma run_Call_cases {W A : Type} (h : Handler W) (ev : Event)
    (k : Resp ev -> Prog A) (w w' : W) (r : Result A) (tr : list Obs) :
  run h (Call ev k) w = (r, w', tr) ->
  (exists e, h ev w = (Err e, w') /\ r = Err e /\ tr = [called ev (Err e)])
  \/ (exists x w1 tr0,
        h ev w = (Ok x, w1) /\ run h (k x) w1 = (r, w', tr0)
        /\ tr = called ev (Ok x) :: tr0).
Proof.
  simpl. destruct (h ev w) as [[x|e] w1].
  - destruct (run h (k x) w1) as [[r0 w0] tr0] eqn:E. intros [= <- <- <-].
    right. exists x, w1, tr0. auto.
  - intros [= <- <- <-]. left. exists e. auto.
Qed.

Lemma run_bind_cases {W A B : Type} (h : Handler W) (p : Prog A) (f : A -> Prog B)
    (w w' : W) (r : Result B) (tr : list Obs) :
  run h (bind p f) w = (r, w', tr) ->
  (exists e, run h p w = (Err e, w', tr) /\ r = Err e)
  \/ (exists a w1 tr1 tr2,
        run h p w = (Ok a, w1, tr1) /\ run h (f a) w1 = (r, w', tr2)
        /\ tr = tr1 ++ tr2).
Proof.
  rewrite run_bind. destruct (run h p w) as [[[a|e] w1] tr1].
  - destruct (run h (f a) w1) as [[r0 w0] tr2] eqn:E. intros [= <- <- <-].
    right. exists a, w1, tr1, tr2. auto.
  - intros [= <- <- <-]. left. exists e. auto.
Qed.

Lemma getRelease_calls {L : Libs} (W : Type) (h : Handler W) (w w' : W)
    (dv : DownloadVersion) (r : Result Member) (tr : list Obs)
    (ev : Event) (res : Result (Resp ev)) :
  run h (getRelease dv) w = (r, w', tr) -> In (called ev res) tr ->
  manifest_call ev = true.
Proof.
  intros H Hin. unfold getRelease in H. exec H h.
  all: simplify_eq; event_in Hin; reflexivity.
Qed.

Lemma Cache_new_calls {L : Libs} (rt : Runtime) (W : Type) (h : Handler W) (w w' : W)
    (o : CacheOpts) (r : Result Cache) (tr : list Obs)
    (ev : Event) (res : Result (Resp ev)) :
  run h (Cache_new rt o) w = (r, w', tr) -> In (called ev res) tr ->
  setup_call ev = true.
Proof.
  intros H Hin. unfold Cache_new in H. exec H h.
  all: simplify_eq; event_in Hin; reflexivity.
Qed.

Lemma find_calls (rt : Runtime) (W : Type) (h : Handler W) (w w' : W)
    (this : Cache) (r : Result string) (tr : list Obs)
    (ev : Event) (res : Result (Resp ev)) :
  run h (find rt this) w = (r, w', tr) -> In (called ev res) tr ->
  find_call ev = true.
Proof.
  intros H Hin. unfold find, copyToCache in H. exec H h.
  all: simplify_eq; event_in Hin; reflexivity.
Qed.

Lemma save_calls (rt : Runtime) (W : Type) (h : Handler W) (w w' : W)
    (this : Cache) (file : string) (r : Result string) (tr : list Obs)
    (ev : Event) (res : Result (Resp ev)) :
  run h (save rt this file) w = (r, w', tr) -> In (called ev res) tr ->
  save_call ev = true.
Proof.
  intros H Hin. unfold save, copyToCache in H. exec H h.
  all: simplify_eq; event_in Hin; reflexivity.
Qed.

Lemma find_hit_result (rt : Runtime) (W : Type) (h : Handler W) (w w' : W)
    (this : Cache) (p : string) (tr : list Obs) (n ver pl s : string) :
  run h (find rt this) w = (Ok p, w', tr) ->
  In (called (tc_find n ver pl) (Ok s)) tr -> s <> "" ->
  p = cachePath this.
Proof.
  intros H Hin Hs. apply truthy_true in Hs. unfold find, copyToCache in H. exec H h.
  all: simplify_eq; locate Hin; congruence.
Qed.

Lemma asset_url_format (rt : Runtime) (v vs : string) :
  util_format (downloadURL (undock_download_version v)) [vs; filename rt vs]
  = asset_url rt vs.
Proof.
  unfold asset_url.
  change (util_format (downloadURL (undock_download_version v)) [vs; filename rt vs])
    with ("https://github.com/crazy-max/undock/releases/download/v" +:+ vs +:+ "/" +:+
          filename rt vs +:+ "").
  rewrite append_empty_r. reflexivity.
Qed.

(** One step of the inversion of a run, for an entry known to be a call
    of its trace. *)
Ltac step_in H Hin :=
  norm H;
  lazymatch type of H with
  | run _ (Log _ _ _) _ = _ =>
      let tr0 := fresh "tr" in
      apply run_Log_inv in H; destruct H as [tr0 [H ->]];
      destruct Hin as [Hin|Hin]; [discriminate Hin|]
  | run _ (Ret _) _ = _ => injection H as <- <- <-; destruct Hin
  | run _ (Throw _) _ = _ => injection H as <- <- <-; destruct Hin
  end.

Ltac part_in H Hin :=
  norm H;
  let Hpart := fresh "Hpart" in
  apply run_bind_cases in H;
  destruct H as [[? [Hpart ->]] | [? [? [? [? [Hpart [H ->]]]]]]];
  [ | apply in_app_or in Hin; destruct Hin as [Hin|Hin] ].

(** X13: what [download] fetches is the release asset of the resolved
    version: the one URL it downloads is
    [https://github.com/crazy-max/undock/releases/download/v{vspec}/{filename}],
    and the one file it unpacks is the file that download gave, as a zip
    on win32 and as a tar elsewhere. *)
Theorem download_fetches_release_asset {L : Libs} (rt : Runtime) (W : Type)
    (h : Handler W) (w w' : W) (v : string) (flag : option bool)
    (r : Result string) (tr : list Obs) (ev : Event) (res : Result (Resp ev)) :
  run h (download rt v flag) w = (r, w', tr) ->
  In (called ev res) tr ->
  fetch_call ev = true ->
  exists resp body releases release,
    In (called (http_get (releasesURL (undock_download_version v))) (Ok resp)) tr
    /\ In (called (readBody resp) (Ok body)) tr
    /\ JSON_parse body = Ok releases
    /\ releases !! v = Some release
    /\ let url := asset_url rt (vspec_replace (tag_name release)) in
       ev = tc_downloadTool url
       \/ exists file,
            In (called (tc_downloadTool url) (Ok file)) tr
            /\ (ev = tc_extractZip file /\ os_platform rt = "win32"
                \/ ev = tc_extractTar file /\ os_platform rt <> "win32").
Proof.
  intros H Hin Hfetch. unfold download, getDownloadVersion, vspec in H.
  step_in H Hin. part_in H Hin.
  { apply (getRelease_calls _ _ _ _ _ _ _ _ _ Hpart) in Hin.
    destruct ev; discriminate. }
  { apply (getRelease_calls _ _ _ _ _ _ _ _ _ Hpart) in Hin.
    destruct ev; discriminate. }
  rename Hpart into Hrel. apply run_getRelease_ok in Hrel.
  destruct Hrel as [resp [body [releases [Hget [Hbody [_ [Hparse Hlook]]]]]]].
  step_in H Hin. destruct x as [release|name]; [|step_in H Hin].
  apply property_read_own in Hlook.
  exists resp, body, releases, release.
  split; [right; apply in_or_app; left; exact Hget|].
  split; [right; apply in_or_app; left; exact Hbody|].
  split; [exact Hparse|]. split; [exact Hlook|].
  do 2 step_in H Hin.
  destruct (negb _) in H; [step_in H Hin|].
  part_in H Hin.
  { apply (Cache_new_calls _ _ _ _ _ _ _ _ _ _ Hpart) in Hin.
    destruct ev; discriminate. }
  { apply (Cache_new_calls _ _ _ _ _ _ _ _ _ _ Hpart) in Hin.
    destruct ev; discriminate. }
  clear Hpart. part_in H Hin.
  { apply (find_calls _ _ _ _ _ _ _ _ _ _ Hpart) in Hin.
    destruct ev; discriminate. }
  { apply (find_calls _ _ _ _ _ _ _ _ _ _ Hpart) in Hin.
    destruct ev; discriminate. }
  clear Hpart. destruct (truthy _) in H; [do 2 step_in H Hin|].
  step_in H Hin. norm H. rewrite asset_url_format in H.
  apply run_Call_cases in H.
  destruct H as [[e [E [-> ->]]] | [file [w5 [tr5 [E [H ->]]]]]].
  { destruct Hin as [Hin|[]].
    apply (f_equal event_of) in Hin. injection Hin as <-. left. reflexivity. }
  destruct Hin as [Hin|Hin].
  { apply (f_equal event_of) in Hin. injection Hin as <-. left. reflexivity. }
  right. exists file. split.
  { simpl. right. apply in_or_app. right. simpl. do 3 right.
    apply in_or_app. right. apply in_or_app. right. simpl. tauto. }
  step_in H Hin. part_in H Hin.
  { destruct (String.eqb_spec (os_platform rt) "win32") as [Hw|Hw].
    all: apply run_Call_cases in Hpart.
    all: destruct Hpart as [[e [E' [_ ->]]] | [y [w6 [tr6 [E' [Hret ->]]]]]].
    all: try (simpl in Hret; discriminate Hret).
    all: destruct Hin as [Hin|[]].
    all: apply (f_equal event_of) in Hin; injection Hin as <-; auto. }
  { destruct (String.eqb_spec (os_platform rt) "win32") as [Hw|Hw].
    all: apply run_Call_cases in Hpart.
    all: destruct Hpart as [[e [E' [Hbad ->]]] | [y [w6 [tr6 [E' [Hret ->]]]]]].
    all: try discriminate Hbad.
    all: simpl in Hret; injection Hret as <- <- <-.
    all: destruct Hin as [Hin|[]].
    all: apply (f_equal event_of) in Hin; injection Hin as <-; auto. }
  clear Hpart. do 2 step_in H Hin. part_in H Hin.
  { apply (save_calls _ _ _ _ _ _ _ _ _ _ _ Hpart) in Hin.
    destruct ev; discriminate. }
  { apply (save_calls _ _ _ _ _ _ _ _ _ _ _ Hpart) in Hin.
    destruct ev; discriminate. }
  do 2 step_in H Hin.
Qed.

Lemma download_fetches_release_asset_witness :
  exists resp body releases release,
    In (called (http_get (releasesURL (undock_download_version "latest"))) (Ok resp))
       (run (scripted fresh_runner) (download linux_x64 (L:=libs0) "latest" None) tt).2
    /\ In (called (readBody resp) (Ok body))
          (run (scripted fresh_runner) (download linux_x64 (L:=libs0) "latest" None) tt).2
    /\ parse_document releases_doc releases_json body = Ok releases
    /\ releases !! "latest" = Some release
    /\ let url := asset_url linux_x64 (vspec_replace (tag_name release)) in
       tc_extractTar "/tmp/dl/archive" = tc_downloadTool url
       \/ exists file,
            In (called (tc_downloadTool url) (Ok file))
               (run (scripted fresh_runner)
                  (download linux_x64 (L:=libs0) "latest" None) tt).2
            /\ (tc_extractTar "/tmp/dl/archive" = tc_extractZip file
                /\ os_platform linux_x64 = "win32"
                \/ tc_extractTar "/tmp/dl/archive" = tc_extractTar file
                   /\ os_platform linux_x64 <> "win32").
Proof.
  refine (download_fetches_release_asset (L:=libs0) linux_x64 unit (scripted fresh_runner)
            tt tt "latest" None _
            (run (scripted fresh_runner) (download linux_x64 (L:=libs0) "latest" None) tt).2
            (tc_extractTar "/tmp/dl/archive") (Ok "/tmp/dl/extracted") eq_refl _ eq_refl).
  vm_compute. tauto.
Defined.

(** X14: nothing but the manifest is touched before the version is known
    to be valid: a call of [download] that is not the GET of the manifest
    or the reading of its body comes after the manifest gave a release
    whose version spec passed the [semver] test. *)
Theorem download_validates_first {L : Libs} (rt : Runtime) (W : Type)
    (h : Handler W) (w w' : W) (v : string) (flag : option bool)
    (r : Result string) (tr : list Obs) (ev : Event) (res : Result (Resp ev)) :
  run h (download rt v flag) w = (r, w', tr) ->
  In (called ev res) tr ->
  manifest_call ev = false ->
  exists resp body releases release,
    In (called (http_get (releasesURL (undock_download_version v))) (Ok resp)) tr
    /\ In (called (readBody resp) (Ok body)) tr
    /\ statusCode_or_500 (message_statusCode resp) < 400
    /\ JSON_parse body = Ok releases
    /\ releases !! v = Some release
    /\ truthy_opt (semver_valid
                     (or_else (semver_clean (vspec_replace (tag_name release))) ""))
       = true.
Proof.
  intros H Hin Hev. unfold download, getDownloadVersion, vspec in H.
  step_in H Hin. part_in H Hin.
  { apply (getRelease_calls _ _ _ _ _ _ _ _ _ Hpart) in Hin. congruence. }
  { apply (getRelease_calls _ _ _ _ _ _ _ _ _ Hpart) in Hin. congruence. }
  rename Hpart into Hrel. apply run_getRelease_ok in Hrel.
  destruct Hrel as [resp [body [releases [Hget [Hbody [Hs [Hparse Hlook]]]]]]].
  step_in H Hin. destruct x as [release|name]; [|step_in H Hin].
  apply property_read_own in Hlook.
  exists resp, body, releases, release.
  split; [right; apply in_or_app; left; exact Hget|].
  split; [right; apply in_or_app; left; exact Hbody|].
  split; [exact Hs|]. split; [exact Hparse|]. split; [exact Hlook|].
  do 2 step_in H Hin.
  destruct (truthy_opt _) eqn:Hvalid in H; [exact Hvalid|].
  cbn [negb] in H. step_in H Hin.
Qed.

Lemma download_validates_first_witness :
  exists resp body releases release,
    In (called (http_get (releasesURL (undock_download_version "latest"))) (Ok resp))
       (run (scripted fresh_runner) (download linux_x64 (L:=libs0) "latest" None) tt).2
    /\ In (called (readBody resp) (Ok body))
          (run (scripted fresh_runner) (download linux_x64 (L:=libs0) "latest" None) tt).2
    /\ statusCode_or_500 (message_statusCode resp) < 400
    /\ parse_document releases_doc releases_json body = Ok releases
    /\ releases !! "latest" = Some release
    /\ truthy_opt (Semver.valid
                     (or_else (Semver.clean (vspec_replace (tag_name release))) ""))
       = true.
Proof.
  refine (download_validates_first (L:=libs0) linux_x64 unit (scripted fresh_runner)
            tt tt "latest" None _
            (run (scripted fresh_runner) (download linux_x64 (L:=libs0) "latest" None) tt).2
            (tc_find "undock-dl-bin" "1.2.3" "linux-x64") (Ok "") eq_refl _ eq_refl).
  vm_compute. tauto.
Defined.

(** The entries of a trace put together from parts, one part at a time. *)
Ltac split_in H :=
  repeat match type of H with
  | In _ (_ ++ _) => apply in_app_or in H; destruct H as [H|H]
  | In _ (_ :: _) => destruct H as [H|H]
  | In _ [] => destruct H
  end.

(** X15: when the hosted tool cache has the binary, [download] returns
    without downloading, unpacking or uploading anything: a successful
    run in which [tc.find] gave a path holds no call of [tc.downloadTool],
    [tc.extractZip], [tc.extractTar] or [cache.saveCache]. *)
Theorem download_hit_fetches_nothing {L : Libs} (rt : Runtime) (W : Type)
    (h : Handler W) (w w' : W) (v : string) (flag : option bool)
    (p : string) (tr : list Obs) (n ver pl s : string) :
  run h (download rt v flag) w = (Ok p, w', tr) ->
  p <> "" ->
  In (called (tc_find n ver pl) (Ok s)) tr ->
  s <> "" ->
  forall ev res,
    In (called ev res) tr ->
    fetch_call ev = false /\ forall paths key, ev <> cache_saveCache paths key.
Proof.
  intros H Hp Hfound Hs. unfold download, getDownloadVersion, vspec in H.
  do 2 inv_ok H. rename Hrun into Hrel.
  inv_ok H. destruct a as [release|name]; [|inv_ok H]. do 2 inv_ok H.
  destruct (negb _) in H; [discriminate H|].
  inv_ok H. rename Hrun into Hnew. inv_ok H. rename Hrun into Hfind.
  match type of H with context [truthy ?f] => destruct (truthy f) eqn:Ef end.
  - do 2 inv_ok H. intros ev res Hin. split_in Hin; try discriminate Hin.
    + apply (getRelease_calls _ _ _ _ _ _ _ _ _ Hrel) in Hin.
      destruct ev; try discriminate Hin; (split; [reflexivity | discriminate]).
    + apply (Cache_new_calls _ _ _ _ _ _ _ _ _ _ Hnew) in Hin.
      destruct ev; try discriminate Hin; (split; [reflexivity | discriminate]).
    + apply (find_calls _ _ _ _ _ _ _ _ _ _ Hfind) in Hin.
      destruct ev; try discriminate Hin; (split; [reflexivity | discriminate]).
  - exfalso. apply truthy_false in Ef. subst.
    do 4 inv_ok H. rename Hrun into Hext. do 3 inv_ok H.
    pose proof (save_calls _ _ _ _ _ _ _ _ _ (tc_find n ver pl) (Ok s) Hrun) as Hsave.
    apply run_save_ok in Hrun. do 2 inv_ok H.
    match type of Hfind with
    | run _ (find _ ?c) _ = _ => assert (Hcp : cachePath c <> "") by congruence
    end.
    split_in Hfound; try discriminate Hfound.
    + apply (getRelease_calls _ _ _ _ _ _ _ _ _ Hrel) in Hfound. discriminate Hfound.
    + apply (Cache_new_calls _ _ _ _ _ _ _ _ _ _ Hnew) in Hfound. discriminate Hfound.
    + apply Hcp. symmetry.
      exact (find_hit_result _ _ _ _ _ _ _ _ _ _ _ _ Hfind Hfound Hs).
    + destruct (String.eqb (os_platform rt) "win32"); unfold call in Hext.
      all: inv_ok Hext; inv_ok Hext.
      all: destruct Hfound as [Hfound|[]]; discriminate Hfound.
    + apply Hsave in Hfound. discriminate Hfound.
Qed.

(** ** Install.install *)

Lemma hcalled_inj (ev : HostEvent) (r1 r2 : Result (HostResp ev)) :
  hcalled ev r1 = hcalled ev r2 -> r1 = r2.
Proof.
  intros H. inversion H as [H'].
  exact (Eqdep_dec.inj_pair2_eq_dec HostEvent HostEvent_eq_dec _ _ _ _ H').
Qed.

Ltac hexec_step H h :=
  cbn [hrun hbind mbind mret HostProg_bind HostProg_ret hcall host_info] in H;
  match type of H with
  | context [h ?ev ?w] =>
      let E := fresh "E" in destruct (h ev w) as [[?|?] ?] eqn:E
  | context [if ?b then _ else _] =>
      let E := fresh "Eb" in destruct b eqn:E
  end.

Ltac hexec H h := repeat hexec_step H h;
  cbn [hrun hbind mbind mret HostProg_bind HostProg_ret hcall host_info] in H;
  repeat match goal with x : HostResp _ |- _ => progress (cbn [HostResp Resp] in x) end;
  repeat match goal with x : unit |- _ => destruct x end.

Ltac hlocate H :=
  repeat match type of H with
  | In _ (_ :: _) => destruct H as [H|H]
  | In _ [] => destruct H
  | hlogged _ _ = hcalled _ _ => discriminate H
  | hcalled ?ev1 _ = hcalled ?ev2 _ =>
      let Hev := fresh "Hev" in
      assert (Hev : Some ev1 = Some ev2) by exact (f_equal host_event_of H);
      first
        [ discriminate Hev
        | clear Hev; apply hcalled_inj in H; simplify_eq
        | injection Hev as Hev; try (injection Hev; clear Hev; intros); subst;
          apply hcalled_inj in H; simplify_eq ]
  end.

Ltac hevent_in H :=
  repeat match type of H with
  | In _ (_ :: _) => destruct H as [H|H]
  | In _ [] => destruct H
  | hlogged _ _ = hcalled _ _ => discriminate H
  | hcalled _ _ = hcalled _ _ =>
      apply (f_equal host_event_of) in H; simpl in H; simplify_eq
  end.

(** X16: the path [install] returns is [{dest}/undock-bin/{binary}], the
    binary being [undock.exe] on win32 and [undock] elsewhere; the
    destination is the one given, and [Context.tmpDir()] is asked only
    when none, or the empty one, is given.  By then the binary was copied
    to that path, given mode 0755, and its directory added to the PATH. *)
Theorem install_returns_installed_path {L : Libs} (rt : Runtime) (W : Type)
    (h : HostHandler W) (w w' : W) (binPath : string) (dest : option string)
    (p : string) (tr : list HostObs) :
  hrun h (install rt binPath dest) w = (Ok p, w', tr) ->
  exists d,
    (match dest with
     | Some given =>
         if String.eqb given "" then In (hcalled Context_tmpDir (Ok d)) tr
         else d = given /\ forall res, ~ In (hcalled Context_tmpDir res) tr
     | None => In (hcalled Context_tmpDir (Ok d)) tr
     end)
    /\ p = path_join [path_join [d; "undock-bin"];
                      if String.eqb (os_platform rt) "win32" then "undock.exe" else "undock"]
    /\ In (hcalled (toolkit (fs_copyFileSync binPath p)) (Ok tt)) tr
    /\ In (hcalled (fs_chmodSync p "0755") (Ok tt)) tr
    /\ In (hcalled (core_addPath (path_join [d; "undock-bin"])) (Ok tt)) tr.
Proof.
  intros H. unfold install in H.
  destruct dest as [given|]; [unfold truthy_opt, truthy in H; cbn [default] in H;
    destruct (String.eqb given "") eqn:Eg; cbn [negb] in H|cbn [truthy_opt] in H].
  all: hexec H h.
  all: simplify_eq.
  all: eexists; split;
    [ first [ simpl; tauto
            | split; [reflexivity | intros res Hin; hevent_in Hin] ]
    | split; [reflexivity | simpl; tauto] ].
Qed.

Lemma install_returns_installed_path_witness :
  exists d,
    (d = "/opt/tools"
     /\ forall res, ~ In (hcalled Context_tmpDir res)
                       (hrun (plain_host false)
                          (install (L:=libs0) linux_x64 "/tmp/dl/undock" (Some "/opt/tools"))
                          tt).2)
    /\ "/opt/tools/undock-bin/undock"
       = posix_join [posix_join [d; "undock-bin"]; "undock"]
    /\ In (hcalled (toolkit (fs_copyFileSync "/tmp/dl/undock" "/opt/tools/undock-bin/undock"))
             (Ok tt))
          (hrun (plain_host false)
             (install (L:=libs0) linux_x64 "/tmp/dl/undock" (Some "/opt/tools")) tt).2
    /\ In (hcalled (fs_chmodSync "/opt/tools/undock-bin/undock" "0755") (Ok tt))
          (hrun (plain_host false)
             (install (L:=libs0) linux_x64 "/tmp/dl/undock" (Some "/opt/tools")) tt).2
    /\ In (hcalled (core_addPath (posix_join [d; "undock-bin"])) (Ok tt))
          (hrun (plain_host false)
             (install (L:=libs0) linux_x64 "/tmp/dl/undock" (Some "/opt/tools")) tt).2.
Proof.
  exact (install_returns_installed_path (L:=libs0) linux_x64 unit (plain_host false) tt tt
           "/tmp/dl/undock" (Some "/opt/tools") "/opt/tools/undock-bin/undock"
           (hrun (plain_host false)
              (install (L:=libs0) linux_x64 "/tmp/dl/undock" (Some "/opt/tools")) tt).2
           eq_refl).
Defined.

(** X17: [install] extends the PATH last: the directory is added only
    after the binary was copied into it and given mode 0755; the directory
    is created only when it was found missing; and when the copy throws,
    [install] throws the same, no mode is changed and the PATH is left
    alone. *)
Theorem install_extends_path_last {L : Libs} (rt : Runtime) (W : Type)
    (h : HostHandler W) (w w' : W) (binPath : string) (dest : option string)
    (r : Result string) (tr : list HostObs) :
  hrun h (install rt binPath dest) w = (r, w', tr) ->
  (forall dir res,
      In (hcalled (core_addPath dir) res) tr ->
      let p := path_join [dir; if String.eqb (os_platform rt) "win32"
                                then "undock.exe" else "undock"] in
      In (hcalled (toolkit (fs_copyFileSync binPath p)) (Ok tt)) tr
      /\ In (hcalled (fs_chmodSync p "0755") (Ok tt)) tr)
  /\ (forall dir res,
        In (hcalled (toolkit (fs_mkdirSync dir)) res) tr ->
        In (hcalled (toolkit (fs_existsSync dir)) (Ok false)) tr)
  /\ (forall src dst e,
        In (hcalled (toolkit (fs_copyFileSync src dst)) (Err e)) tr ->
        r = Err e
        /\ forall ev res, In (hcalled ev res) tr ->
             match ev with
             | fs_chmodSync _ _ | core_addPath _ => False
             | _ => True
             end).
Proof.
  intros H. unfold install in H. repeat apply conj.
  - intros dir res Hin p. subst p.
    destruct (truthy_opt dest); hexec H h.
    all: simplify_eq; hlocate Hin; simpl; tauto.
  - intros dir res Hin.
    destruct (truthy_opt dest); hexec H h.
    all: simplify_eq; hlocate Hin; bools; simpl; tauto.
  - intros src dst e Hin.
    destruct (truthy_opt dest); hexec H h.
    all: simplify_eq; hlocate Hin.
    all: split; [reflexivity|]; intros ev res Hin'; hevent_in Hin'; exact I.
Qed.

Lemma install_extends_path_last_witness :
  In (hcalled (toolkit (fs_copyFileSync "/tmp/dl/undock"
                          (posix_join ["/opt/tools/undock-bin"; "undock"]))) (Ok tt))
     (hrun (plain_host false)
        (install (L:=libs0) linux_x64 "/tmp/dl/undock" (Some "/opt/tools")) tt).2
  /\ In (hcalled (fs_chmodSync (posix_join ["/opt/tools/undock-bin"; "undock"]) "0755")
           (Ok tt))
        (hrun (plain_host false)
           (install (L:=libs0) linux_x64 "/tmp/dl/undock" (Some "/opt/tools")) tt).2.
Proof.
  refine (proj1 (install_extends_path_last (L:=libs0) linux_x64 unit (plain_host false)
                   tt tt "/tmp/dl/undock" (Some "/opt/tools") _
                   (hrun (plain_host false)
                      (install (L:=libs0) linux_x64 "/tmp/dl/undock" (Some "/opt/tools"))
                      tt).2 eq_refl)
            "/opt/tools/undock-bin" (Ok tt) _).
  vm_compute. tauto.
Defined.

(** ** Config *)

(** X18: [generateFromFile] on a path that does not exist throws
    [config file {path} not found] and has done nothing else: nothing was
    read, no temporary name was taken, nothing was written. *)
Theorem generateFromFile_missing (W : Type) (h : HostHandler W) (w w' : W)
    (s : string) (r : Result string) (tr : list HostObs) :
  hrun h (generateFromFile s) w = (r, w', tr) ->
  In (hcalled (toolkit (fs_existsSync s)) (Ok false)) tr ->
  r = Err (Error ("config file " +:+ s +:+ " not found"))
  /\ tr = [hcalled (toolkit (fs_existsSync s)) (Ok false)].
Proof.
  intros H Hin. unfold generateFromFile, generate in H. hexec H h.
  all: simplify_eq; hlocate Hin; bools; try discriminate.
  split; reflexivity.
Qed.

Lemma generateFromFile_missing_witness :
  (hrun on_disk (generateFromFile "/etc/buildkitd.toml") (mkDisk ∅ 0)).1.1
  = Err (Error "config file /etc/buildkitd.toml not found").
Proof.
  refine (proj1 (generateFromFile_missing Disk on_disk (mkDisk ∅ 0) (mkDisk ∅ 0)
                   "/etc/buildkitd.toml" _
                   (hrun on_disk (generateFromFile "/etc/buildkitd.toml") (mkDisk ∅ 0)).2
                   eq_refl _)).
  vm_compute. tauto.
Defined.

(** X19: [generateFromString] never looks at the file system for its
    argument: its calls are the two to [Context] and one write.  The
    name it returns is the temporary name [Context] gave for its temporary
    directory, and what was written under it is the string itself. *)
Theorem generateFromString_writes_argument (W : Type) (h : HostHandler W) (w w' : W)
    (s : string) (r : Result string) (tr : list HostObs) :
  hrun h (generateFromString s) w = (r, w', tr) ->
  (forall ev res, In (hcalled ev res) tr ->
     match ev with
     | Context_tmpDir | Context_tmpName _ => True
     | fs_writeFileSync _ data => data = s
     | _ => False
     end)
  /\ (forall p, r = Ok p ->
        exists tmpdir,
          tr = [hcalled Context_tmpDir (Ok tmpdir);
                hcalled (Context_tmpName tmpdir) (Ok p);
                hcalled (fs_writeFileSync p s) (Ok tt)]).
Proof.
  intros H. unfold generateFromString, generate in H. split.
  - intros ev res Hin. hexec H h.
    all: simplify_eq; hevent_in Hin; exact I || reflexivity.
  - intros p ->. hexec H h.
    all: simplify_eq. eexists. reflexivity.
Qed.

(** X20: what [generateFromFile] writes is what it read: when it returns
    a name, the file was found, its content read, and that content
    written under the temporary name returned; the file read is not
    written unless [Context] gave its very name. *)
Theorem generateFromFile_copies_content (W : Type) (h : HostHandler W) (w w' : W)
    (s p : string) (tr : list HostObs) :
  hrun h (generateFromFile s) w = (Ok p, w', tr) ->
  exists content tmpdir,
    tr = [hcalled (toolkit (fs_existsSync s)) (Ok true);
          hcalled (fs_readFileSync s) (Ok content);
          hcalled Context_tmpDir (Ok tmpdir);
          hcalled (Context_tmpName tmpdir) (Ok p);
          hcalled (fs_writeFileSync p content) (Ok tt)].
Proof.
  intros H. unfold generateFromFile, generate in H. hexec H h.
  all: simplify_eq; bools.
  do 2 eexists. reflexivity.
Qed.

Lemma generateFromFile_copies_content_witness :
  exists content tmpdir,
    (hrun on_disk (generateFromFile "/etc/buildkitd.toml")
       (mkDisk {[ "/etc/buildkitd.toml" := "debug = true" ]} 0)).2
    = [hcalled (toolkit (fs_existsSync "/etc/buildkitd.toml")) (Ok true);
       hcalled (fs_readFileSync "/etc/buildkitd.toml") (Ok content);
       hcalled Context_tmpDir (Ok tmpdir);
       hcalled (Context_tmpName tmpdir) (Ok "/tmp/docker-actions-toolkit/tmp-0");
       hcalled (fs_writeFileSync "/tmp/docker-actions-toolkit/tmp-0" content) (Ok tt)].
Proof.
  exact (generateFromFile_copies_content Disk on_disk
           (mkDisk {[ "/etc/buildkitd.toml" := "debug = true" ]} 0)
           (hrun on_disk (generateFromFile "/etc/buildkitd.toml")
              (mkDisk {[ "/etc/buildkitd.toml" := "debug = true" ]} 0)).1.2
           "/etc/buildkitd.toml" "/tmp/docker-actions-toolkit/tmp-0"
           (hrun on_disk (generateFromFile "/etc/buildkitd.toml")
              (mkDisk {[ "/etc/buildkitd.toml" := "debug = true" ]} 0)).2
           eq_refl).
Defined.

Lemma generateFromString_writes_argument_witness :
  exists tmpdir,
    (hrun on_disk (generateFromString "debug = true") (mkDisk ∅ 7)).2
    = [hcalled Context_tmpDir (Ok tmpdir);
       hcalled (Context_tmpName tmpdir) (Ok "/tmp/docker-actions-toolkit/tmp-7");
       hcalled (fs_writeFileSync "/tmp/docker-actions-toolkit/tmp-7" "debug = true")
         (Ok tt)].
Proof.
  exact (proj2 (generateFromString_writes_argument Disk on_disk (mkDisk ∅ 7)
                  (hrun on_disk (generateFromString "debug = true") (mkDisk ∅ 7)).1.2
                  "debug = true" _
                  (hrun on_disk (generateFromString "debug = true") (mkDisk ∅ 7)).2
                  eq_refl)
           "/tmp/docker-actions-toolkit/tmp-7" eq_refl).
Defined.

(** Bytes below 128 are text as they are. *)
Lemma utf8_text_ascii (s : string) :
  (forall b, In b (list_ascii_of_string s) -> (N_of_ascii b <= 127)%N) ->
  utf8_text s = s.
Proof.
  unfold utf8_text. induction s as [|b s IH]; intros Hs; [reflexivity|].
  cbn [utf8_decode]. unfold utf8_lead.
  assert (Hb : (N_of_ascii b <=? 127)%N = true).
  { apply N.leb_le, Hs. left. reflexivity. }
  rewrite Hb. cbn [fst snd]. rewrite append_cons, IH; [reflexivity|].
  intros c Hc. apply Hs. right. exact Hc.
Qed.

Example utf8_text_e_acute :
  utf8_text (String (ascii_of_N 195) (String (ascii_of_N 169) "!"))
  = String (ascii_of_N 195) (String (ascii_of_N 169) "!").
Proof. reflexivity. Qed.

Example utf8_text_stray_byte :
  utf8_text (String "a" (String (ascii_of_N 255) "b"))
  = "a" +:+ replacement_character +:+ "b".
Proof. reflexivity. Qed.

Example utf8_text_cut_short :
  utf8_text (String (ascii_of_N 226) (String (ascii_of_N 130) "x"))
  = replacement_character +:+ "x".
Proof. reflexivity. Qed.

Example utf8_text_surrogate :
  utf8_text (String (ascii_of_N 237) (String (ascii_of_N 160) (String (ascii_of_N 128) "")))
  = replacement_character +:+ replacement_character +:+ replacement_character.
Proof. reflexivity. Qed.

Example tmp_name_taken :
  (hrun on_disk (generateFromString "debug = true")
     (mkDisk {[ "/tmp/docker-actions-toolkit/tmp-0" := "kept" ]} 0)).1
  = (Err (Error "Could not get a unique tmp filename, max tries reached"),
     mkDisk {[ "/tmp/docker-actions-toolkit/tmp-0" := "kept" ]} 1).
Proof. vm_compute. reflexivity. Qed.



Lemma download_hit_fetches_nothing_witness :
  fetch_call (fs_copyFileSync (hosted_dir +:+ "/undock")
                "/home/runner/.bin/1.2.3/linux-x64/undock") = false
  /\ forall paths key,
       fs_copyFileSync (hosted_dir +:+ "/undock") "/home/runner/.bin/1.2.3/linux-x64/undock"
       <> cache_saveCache paths key.
Proof.
  refine (download_hit_fetches_nothing (L:=libs0) linux_x64 unit (scripted warm_runner)
            tt tt "latest" None "/home/runner/.bin/1.2.3/linux-x64/undock"
            (run (scripted warm_runner) (download linux_x64 (L:=libs0) "latest" None) tt).2
            "undock-dl-bin" "1.2.3" "linux-x64" hosted_dir eq_refl _ _ _
            (fs_copyFileSync (hosted_dir +:+ "/undock")
               "/home/runner/.bin/1.2.3/linux-x64/undock") (Ok tt) _).
  - discriminate.
  - vm_compute. tauto.
  - discriminate.
  - vm_compute. tauto.
Defined.
